(** * SMU pipeline: duplicate resolution, topology summaries, merging and fate

    A shallow embedding of the record-reconciliation core of the SMU
    pipeline ([smu/pipeline.py]) together with the parts of
    [smu/parser/smu_utils_lib.py] that the pipeline calls.

    - Python exceptions are values of [exn]; a function that can raise
      returns a [result].
    - Protocol-buffer messages are records; a repeated field is a list, an
      integer field is a [Z] (no arithmetic below leaves the 64-bit range
      of the identifiers), a floating-point field is a rational [Q]:
      comparisons are exact, the rounding of doubles is outside the model.
    - [beam.metrics...inc()] only bumps job-level observability counters
      that no function reads back; those calls are left out. *)

From Stdlib Require Import ZArith QArith Qabs List Bool Lia Permutation String.
From Stdlib Require Import Ascii DecimalString DecimalPos DecimalZ.
Import ListNotations.
Open Scope Z_scope.

(** ** Exceptions *)

(** The message of a [ValueError], by the place that raises it. *)
Inductive value_error : Type :=
| ExpectedOneConformer        (* 'Expected 1 conformers with id {}, got {}' *)
| WrongDuplicatedBy           (* 'Conformer {} should have duplicated_by {} ...' *)
| DuplicateSource             (* two stage-1 or two stage-2 records *)
| BadTopologyCount            (* a record without exactly one bond topology *)
| BadInitialGeometryCount     (* a record without exactly one initial geometry *)
| TopologyMismatch            (* the two bond topologies differ *)
| DuplicatedByMismatch.       (* two different non-zero duplicated_by *)

Inductive exn : Type :=
| ValueError (why : value_error)
| AssertionError
| AttributeError
| IndexError.

Inductive result (A : Type) : Type :=
| Ok (a : A)
| Raise (e : exn).

Arguments Ok {A} a.
Arguments Raise {A} e.

Definition bind {A B : Type} (c : result A) (k : A -> result B) : result B :=
  match c with
  | Ok a => k a
  | Raise e => Raise e
  end.

Notation "x <- c ;; k" := (bind c (fun x => k))
  (at level 61, c at next level, right associativity).

(** [functools.reduce(f, xs, init)] for an [f] that may raise. *)
Fixpoint reduce {A B : Type} (f : A -> B -> result A) (xs : list B) (init : A)
  : result A :=
  match xs with
  | [] => Ok init
  | x :: rest => acc <- f init x ;; reduce f rest acc
  end.

(** ** The record model (dataset.proto, as the sources use it) *)

Inductive AtomType : Type :=
| ATOM_C | ATOM_N | ATOM_NPOS | ATOM_O | ATOM_ONEG | ATOM_F | ATOM_H.

Inductive BondType : Type :=
| BOND_UNDEFINED | BOND_SINGLE | BOND_DOUBLE | BOND_TRIPLE.

Record Bond : Type := mkBond {
  atom_a : Z;
  atom_b : Z;
  bond_type : BondType }.

Record BondTopology : Type := mkBondTopology {
  atoms : list AtomType;
  bonds : list Bond;
  smiles : string;
  bond_topology_id : Z }.

Record Geometry : Type := mkGeometry {
  atom_positions : list (Q * Q * Q) }.

Inductive FateCategory : Type :=
| FATE_UNDEFINED
| FATE_DUPLICATE_SAME_TOPOLOGY
| FATE_DUPLICATE_DIFFERENT_TOPOLOGY
| FATE_GEOMETRY_OPTIMIZATION_PROBLEM
| FATE_DISASSOCIATED
| FATE_FORCE_CONSTANT_FAILURE
| FATE_DISCARDED_OTHER
| FATE_NO_CALCULATION_RESULTS
| FATE_CALCULATION_WITH_ERROR
| FATE_SUCCESS.

(** The integer error codes of [properties.errors]. The tests name
    [error_nstat1], [error_frequencies], [error_rotational_modes],
    [error_atomic_analysis] and [error_nsvg09]; [error_nstatc] and
    [error_nstatt] stand for the two further codes of a conflict row, which
    the tests show without naming them. *)
Record Errors : Type := mkErrors {
  error_nstat1 : Z;
  error_nstatc : Z;
  error_nstatt : Z;
  error_frequencies : Z;
  error_rotational_modes : Z;
  error_atomic_analysis : Z;
  error_nsvg09 : Z }.

(** A message-typed property is [None] when [HasField] is false. *)
Record Properties : Type := mkProperties {
  errors : Errors;
  initial_geometry_energy : option Q;
  initial_geometry_gradient_norm : option Q;
  optimized_geometry_energy : option Q;
  optimized_geometry_gradient_norm : option Q;
  normal_modes : list Q;
  single_point_energy_pbe0d3_6_311gd : option Q }.

(** [duplicated_by = 0] is the unset value of the integer field. *)
Record Conformer : Type := mkConformer {
  conformer_id : Z;
  bond_topologies : list BondTopology;
  initial_geometries : list Geometry;
  optimized_geometry : option Geometry;
  properties : option Properties;
  duplicated_by : Z;
  duplicate_of : list Z;
  fate : FateCategory }.

(** [conf.duplicate_of.append(x)] *)
Definition duplicate_of_append (conf : Conformer) (x : Z) : Conformer :=
  mkConformer (conformer_id conf) (bond_topologies conf)
    (initial_geometries conf) (optimized_geometry conf) (properties conf)
    (duplicated_by conf) (duplicate_of conf ++ [x]) (fate conf).

(** [conf.initial_geometries.append(g)] *)
Definition initial_geometries_append (conf : Conformer) (g : Geometry)
  : Conformer :=
  mkConformer (conformer_id conf) (bond_topologies conf)
    (initial_geometries conf ++ [g]) (optimized_geometry conf)
    (properties conf) (duplicated_by conf) (duplicate_of conf) (fate conf).

(** ** pipeline.py: the duplicate-resolution pass *)

(** [generate_keyed_conformers_for_duplicates]: the pairs the generator
    yields, in order. *)
Definition generate_keyed_conformers_for_duplicates (conformer : Conformer)
  : list (Z * Conformer) :=
  (conformer_id conformer, conformer)
  :: (if duplicated_by conformer >? 0
      then [(duplicated_by conformer, conformer)]
      else []).

(** The [for conf in conformers] loop of [merge_duplicate_information];
    [main_conformer] is the private copy the loop appends to. *)
Fixpoint absorb_duplicates (conformer_id0 : Z) (main_conformer : Conformer)
    (conformers : list Conformer) : result Conformer :=
  match conformers with
  | [] => Ok main_conformer
  | conf :: rest =>
      if conformer_id conf =? conformer_id0 then
        absorb_duplicates conformer_id0 main_conformer rest
      else if negb (duplicated_by conf =? conformer_id0) then
        Raise (ValueError WrongDuplicatedBy)
      else
        let main1 := duplicate_of_append main_conformer (conformer_id conf) in
        if conformer_id0 / 1000 =? conformer_id conf / 1000 then
          match initial_geometries conf with
          | [] => Raise IndexError
          | g :: _ =>
              absorb_duplicates conformer_id0
                (initial_geometries_append main1 g) rest
          end
        else
          absorb_duplicates conformer_id0 main1 rest
  end.

Definition merge_duplicate_information (conformer_id0 : Z)
    (conformers : list Conformer) : result Conformer :=
  let matching_conformers :=
    filter (fun c => conformer_id c =? conformer_id0) conformers in
  match matching_conformers with
  | [main] => absorb_duplicates conformer_id0 main conformers
  | _ => Raise (ValueError ExpectedOneConformer)
  end.

(** Beam's [GroupByKey]: one group per key; here keys come in the order of
    their first occurrence and a group keeps the order of arrival. *)
Fixpoint group_insert {V : Type} (k : Z) (v : V) (groups : list (Z * list V))
  : list (Z * list V) :=
  match groups with
  | [] => [(k, [v])]
  | (k', vs) :: rest =>
      if k' =? k then (k', vs ++ [v]) :: rest
      else (k', vs) :: group_insert k v rest
  end.

Definition GroupByKey {V : Type} (kvs : list (Z * V)) : list (Z * list V) :=
  fold_left (fun groups kv => group_insert (fst kv) (snd kv) groups) kvs [].

(** The three steps that make [final_conformers] in [pipeline]:
    KeyedForDuplicates, DupGroupByKey, MergeDupInfo. Each group yields the
    record [merge_duplicate_information] returns, or the exception it
    raises. *)
Definition final_conformers (updated_conformers : list Conformer)
  : list (result Conformer) :=
  map (fun kg => merge_duplicate_information (fst kg) (snd kg))
      (GroupByKey
         (flat_map generate_keyed_conformers_for_duplicates
                   updated_conformers)).

(** ** pipeline.py: Beam combiner of per-topology summaries *)

(** Modelled from the spec: the [BondTopologySummary] message is declared in
    [dataset.proto], which is not among the sources. It holds the topology
    descriptor and the ten named counters of the spec's data model; the
    counter names are the [count_*] fields the tests read. *)
Record BondTopologySummary : Type := mkSummary {
  bond_topology : BondTopology;
  count_attempted_conformers : Z;
  count_kept_geometry : Z;
  count_duplicates_same_topology : Z;
  count_duplicates_different_topology : Z;
  count_failed_geometry_optimization : Z;
  count_missing_calculation : Z;
  count_calculation_with_error : Z;
  count_calculation_success : Z;
  count_detected_match_with_error : Z;
  count_detected_match_success : Z }.

(** [BondTopologySummary.DESCRIPTOR.fields], by name. *)
Definition summary_descriptor_fields : list string :=
  [ "bond_topology"; "count_attempted_conformers"; "count_kept_geometry";
    "count_duplicates_same_topology"; "count_duplicates_different_topology";
    "count_failed_geometry_optimization"; "count_missing_calculation";
    "count_calculation_with_error"; "count_calculation_success";
    "count_detected_match_with_error"; "count_detected_match_success" ]%string.

(** The [field_names] that [CombineAndWriteBondTopologySummary.expand]
    collects: every descriptor field whose name starts with 'count_'. *)
Definition count_field_names : list string :=
  filter (fun name => String.prefix "count_" name) summary_descriptor_fields.

(** [getattr(summary, name)] for an integer field. *)
Definition getattr (summary : BondTopologySummary) (name : string)
  : result Z :=
  if (name =? "count_attempted_conformers")%string then
    Ok (count_attempted_conformers summary)
  else if (name =? "count_kept_geometry")%string then
    Ok (count_kept_geometry summary)
  else if (name =? "count_duplicates_same_topology")%string then
    Ok (count_duplicates_same_topology summary)
  else if (name =? "count_duplicates_different_topology")%string then
    Ok (count_duplicates_different_topology summary)
  else if (name =? "count_failed_geometry_optimization")%string then
    Ok (count_failed_geometry_optimization summary)
  else if (name =? "count_missing_calculation")%string then
    Ok (count_missing_calculation summary)
  else if (name =? "count_calculation_with_error")%string then
    Ok (count_calculation_with_error summary)
  else if (name =? "count_calculation_success")%string then
    Ok (count_calculation_success summary)
  else if (name =? "count_detected_match_with_error")%string then
    Ok (count_detected_match_with_error summary)
  else if (name =? "count_detected_match_success")%string then
    Ok (count_detected_match_success summary)
  else Raise AttributeError.

(** [setattr(summary, name, v)] for an integer field. *)
Definition setattr (s : BondTopologySummary) (name : string) (v : Z)
  : result BondTopologySummary :=
  let bt := bond_topology s in
  let c1 := count_attempted_conformers s in
  let c2 := count_kept_geometry s in
  let c3 := count_duplicates_same_topology s in
  let c4 := count_duplicates_different_topology s in
  let c5 := count_failed_geometry_optimization s in
  let c6 := count_missing_calculation s in
  let c7 := count_calculation_with_error s in
  let c8 := count_calculation_success s in
  let c9 := count_detected_match_with_error s in
  let c10 := count_detected_match_success s in
  if (name =? "count_attempted_conformers")%string then
    Ok (mkSummary bt v c2 c3 c4 c5 c6 c7 c8 c9 c10)
  else if (name =? "count_kept_geometry")%string then
    Ok (mkSummary bt c1 v c3 c4 c5 c6 c7 c8 c9 c10)
  else if (name =? "count_duplicates_same_topology")%string then
    Ok (mkSummary bt c1 c2 v c4 c5 c6 c7 c8 c9 c10)
  else if (name =? "count_duplicates_different_topology")%string then
    Ok (mkSummary bt c1 c2 c3 v c5 c6 c7 c8 c9 c10)
  else if (name =? "count_failed_geometry_optimization")%string then
    Ok (mkSummary bt c1 c2 c3 c4 v c6 c7 c8 c9 c10)
  else if (name =? "count_missing_calculation")%string then
    Ok (mkSummary bt c1 c2 c3 c4 c5 v c7 c8 c9 c10)
  else if (name =? "count_calculation_with_error")%string then
    Ok (mkSummary bt c1 c2 c3 c4 c5 c6 v c8 c9 c10)
  else if (name =? "count_calculation_success")%string then
    Ok (mkSummary bt c1 c2 c3 c4 c5 c6 c7 v c9 c10)
  else if (name =? "count_detected_match_with_error")%string then
    Ok (mkSummary bt c1 c2 c3 c4 c5 c6 c7 c8 v c10)
  else if (name =? "count_detected_match_success")%string then
    Ok (mkSummary bt c1 c2 c3 c4 c5 c6 c7 c8 c9 v)
  else Raise AttributeError.

(** [bond_topology_summaries_from_csv]: the file is read by
    [smu_utils_lib.generate_bond_topologies_from_csv]; its topologies are
    the argument here. All counts are left 0. *)
Definition bare_summary (bt : BondTopology) : BondTopologySummary :=
  mkSummary bt 0 0 0 0 0 0 0 0 0 0.

Definition bond_topology_summaries_from_csv (topologies : list BondTopology)
  : list (Z * BondTopologySummary) :=
  map (fun bt => (bond_topology_id bt, bare_summary bt)) topologies.

(** [_merge_two_summaries]; [None] is the [sentinel] object. The
    accumulator is a deep copy of the first summary, so no argument is
    mutated. *)
Definition _merge_two_summaries (field_names : list string)
    (summary0 : option BondTopologySummary) (summary1 : BondTopologySummary)
  : result (option BondTopologySummary) :=
  match summary0 with
  | None => Ok (Some summary1)
  | Some s0 =>
      if bond_topology_id (bond_topology s0)
         =? bond_topology_id (bond_topology summary1)
      then
        s <- reduce (fun acc name =>
                       a <- getattr acc name ;;
                       b <- getattr summary1 name ;;
                       setattr acc name (a + b))
                    field_names s0 ;;
        Ok (Some s)
      else Raise AssertionError
  end.

Definition merge_bond_topology_summaries
    (summaries : list BondTopologySummary) (field_names : list string)
  : result (option BondTopologySummary) :=
  reduce (_merge_two_summaries field_names) summaries None.

(** A way of combining summaries two at a time: the leaves are the
    summaries, a node combines the results of its two sides with one call
    of [merge_bond_topology_summaries]. *)
Inductive grouping : Type :=
| Leaf (s : BondTopologySummary)
| Node (l r : grouping).

Fixpoint leaves (g : grouping) : list BondTopologySummary :=
  match g with
  | Leaf s => [s]
  | Node l r => leaves l ++ leaves r
  end.

Definition summary_list (x : option BondTopologySummary)
  : list BondTopologySummary :=
  match x with
  | Some s => [s]
  | None => []
  end.

Fixpoint combine_grouping (g : grouping)
  : result (option BondTopologySummary) :=
  match g with
  | Leaf s => merge_bond_topology_summaries [s] count_field_names
  | Node l r =>
      a <- combine_grouping l ;;
      b <- combine_grouping r ;;
      merge_bond_topology_summaries (summary_list a ++ summary_list b)
                                    count_field_names
  end.

(** The ten counters of a summary, in the order of [count_field_names]. *)
Definition count_projections : list (BondTopologySummary -> Z) :=
  [ count_attempted_conformers; count_kept_geometry;
    count_duplicates_same_topology; count_duplicates_different_topology;
    count_failed_geometry_optimization; count_missing_calculation;
    count_calculation_with_error; count_calculation_success;
    count_detected_match_with_error; count_detected_match_success ].

Definition counters (s : BondTopologySummary) : list Z :=
  map (fun p => p s) count_projections.

(** The sum of one counter over a list of summaries. *)
Definition total (p : BondTopologySummary -> Z)
    (l : list BondTopologySummary) : Z :=
  fold_right Z.add 0 (map p l).

(** ** smu_utils_lib.py: sources, errors and fate

    [smu/parser/smu_utils_lib.py] is not among the sources; its tests
    ([smu_utils_lib_test.py]) and its caller ([pipeline.py]) are. The
    definitions of this part are modelled from the spec, and follow the
    tests wherever a test pins the behaviour down. *)

Inductive _ConformerSource : Type :=
| DUPLICATE
| STAGE1
| STAGE2.

Definition _ConformerSource_eqb (a b : _ConformerSource) : bool :=
  match a, b with
  | DUPLICATE, DUPLICATE | STAGE1, STAGE1 | STAGE2, STAGE2 => true
  | _, _ => false
  end.

Definition is_some {A : Type} (x : option A) : bool :=
  match x with
  | Some _ => true
  | None => false
  end.

Definition is_empty {A : Type} (l : list A) : bool :=
  match l with
  | [] => true
  | _ :: _ => false
  end.

(** The properties only the second stage computes (spec 4.1: 'fields
    present only in stage-2 (normal modes, etc.)'). *)
Definition has_stage2_properties (p : Properties) : bool :=
  negb (is_empty (normal_modes p))
  || is_some (single_point_energy_pbe0d3_6_311gd p).

(** Modelled from the spec: the origin of a partial record is read off its
    content (spec 3 and 4.2). A duplicate-marker record carries no
    properties; a record with a stage-2-derived property is of stage 2; any
    other record with properties is of stage 1. *)
Definition conformer_source (conf : Conformer) : _ConformerSource :=
  match properties conf with
  | None => DUPLICATE
  | Some p => if has_stage2_properties p then STAGE2 else STAGE1
  end.

(** The fields of [Errors], as a lookup table reads them. *)
Inductive error_field : Type :=
| f_error_nstat1
| f_error_nstatc
| f_error_nstatt
| f_error_frequencies
| f_error_rotational_modes
| f_error_atomic_analysis
| f_error_nsvg09.

Definition error_value (e : Errors) (f : error_field) : Z :=
  match f with
  | f_error_nstat1 => error_nstat1 e
  | f_error_nstatc => error_nstatc e
  | f_error_nstatt => error_nstatt e
  | f_error_frequencies => error_frequencies e
  | f_error_rotational_modes => error_rotational_modes e
  | f_error_atomic_analysis => error_atomic_analysis e
  | f_error_nsvg09 => error_nsvg09 e
  end.

(** The error codes both stages report, and those of stage 2 alone. *)
Definition stage1_error_fields : list error_field :=
  [f_error_nstat1; f_error_nstatc; f_error_nstatt; f_error_frequencies].

Definition stage2_error_fields : list error_field :=
  [f_error_rotational_modes; f_error_atomic_analysis; f_error_nsvg09].

Definition all_error_fields : list error_field :=
  stage1_error_fields ++ stage2_error_fields.

(** An unset message reads as all zeros. *)
Definition default_errors : Errors := mkErrors 0 0 0 0 0 0 0.

Definition errors_of (conf : Conformer) : Errors :=
  match properties conf with
  | Some p => errors p
  | None => default_errors
  end.

(** Modelled from the spec: each error field has its own no-error value
    (spec 3). The tests name the two kinds: a '1 expected field'
    ([test_stage2_error_in_1_expected_field], [error_rotational_modes]) and
    the '0 expected field' [error_nsvg09], of which
    [test_stage2_error_in_0_expected_field] says 'This field is 0 to
    indicate no error' and where the value 1 is an error. These two
    entries, and the 1 of [error_nstat1] (spec 4.2 rule 4), are the ones
    the sources fix; the other fields are read as '1 expected', the value
    the four compared codes have in the error-free records of the tests. *)
Definition no_error_value (f : error_field) : Z :=
  match f with
  | f_error_nsvg09 => 0
  | _ => 1
  end.

(** Modelled from the spec: [error_nstat1] also accepts 3 (spec 4.2 rule 4,
    [test_stage2_nstat1_is_3]). *)
Definition field_signals_error (f : error_field) (v : Z) : bool :=
  match f with
  | f_error_nstat1 => negb (v =? 1) && negb (v =? 3)
  | _ => negb (v =? no_error_value f)
  end.

(** Modelled from the spec: [smu_utils_lib.conformer_has_calculation_errors].
    A record of stage 1 is judged on the stage-1 codes only (its other
    codes are unset); a record of stage 2 on all of them. *)
Definition conformer_has_calculation_errors (conf : Conformer) : bool :=
  existsb (fun f => field_signals_error f (error_value (errors_of conf) f))
          (stage1_error_fields
           ++ match conformer_source conf with
              | STAGE2 => stage2_error_fields
              | _ => []
              end).

(** Modelled from the spec: the fixed table from the geometry-optimization
    status [error_nstat1] to a failure category (spec 4.2 rule 4; the
    entries are those of [DetermineFateTest.test_geometry_failures]). *)
Definition geometry_failure_fate (nstat1 : Z) : option FateCategory :=
  if nstat1 =? 2 then Some FATE_GEOMETRY_OPTIMIZATION_PROBLEM
  else if nstat1 =? 5 then Some FATE_DISASSOCIATED
  else if nstat1 =? 4 then Some FATE_FORCE_CONSTANT_FAILURE
  else if nstat1 =? 6 then Some FATE_DISCARDED_OTHER
  else None.

(** Modelled from the spec: [smu_utils_lib.determine_fate], the ordered
    rules of spec 4.2. The spec lists 'no stage-2-derived properties'
    (rule 3) before the geometry status (rule 4);
    [DetermineFateTest.test_geometry_failures] expects the geometry
    category for a stage-1 record, so the status is looked at first. *)
Definition determine_fate (conf : Conformer) : FateCategory :=
  if duplicated_by conf >? 0 then
    if conformer_id conf / 1000 =? duplicated_by conf / 1000
    then FATE_DUPLICATE_SAME_TOPOLOGY
    else FATE_DUPLICATE_DIFFERENT_TOPOLOGY
  else
    match geometry_failure_fate (error_nstat1 (errors_of conf)) with
    | Some failure => failure
    | None =>
        match conformer_source conf with
        | STAGE2 =>
            if conformer_has_calculation_errors conf
            then FATE_CALCULATION_WITH_ERROR
            else FATE_SUCCESS
        | _ => FATE_NO_CALCULATION_RESULTS
        end
    end.

(** ** smu_utils_lib.py: merging two partial records *)

(** The measurements both stages report. *)
Inductive scalar_field : Type :=
| f_initial_geometry_energy
| f_initial_geometry_gradient_norm
| f_optimized_geometry_energy
| f_optimized_geometry_gradient_norm.

Definition scalar_fields : list scalar_field :=
  [ f_initial_geometry_energy; f_initial_geometry_gradient_norm;
    f_optimized_geometry_energy; f_optimized_geometry_gradient_norm ].

Definition scalar_of (p : Properties) (f : scalar_field) : option Q :=
  match f with
  | f_initial_geometry_energy => initial_geometry_energy p
  | f_initial_geometry_gradient_norm => initial_geometry_gradient_norm p
  | f_optimized_geometry_energy => optimized_geometry_energy p
  | f_optimized_geometry_gradient_norm => optimized_geometry_gradient_norm p
  end.

Definition get_scalar (f : scalar_field) (conf : Conformer) : option Q :=
  match properties conf with
  | Some p => scalar_of p f
  | None => None
  end.

(** The absolute tolerance of the comparison, 1e-6. *)
Definition tolerance : Q := 1 # 1000000.

(** Modelled from the spec: the comparison of one measurement (spec 4.1).
    Only a field present in both records is compared; a stage-2 value of
    exactly -1 is never a mismatch; otherwise the values match when
    |a - b| <= 1e-6. *)
Definition scalar_mismatch (stage2 stage1 : option Q) : bool :=
  match stage2, stage1 with
  | Some v2, Some v1 =>
      if Qeq_bool v2 (-1)
      then false
      else negb (Qle_bool (Qabs (v2 - v1)) tolerance)
  | _, _ => false
  end.

(** One cell of a conflict row. *)
Inductive conflict_value : Type :=
| CInt (z : Z)
| CFloat (q : Q)
| CBool (b : bool).

(** The columns a conflict row has for each source: four error codes, four
    measurements and the presence of the two geometries (the ten values per
    source of the rows in [MergeConformersTest]). *)
Inductive conflict_field : Type :=
| cf_error (f : error_field)
| cf_scalar (f : scalar_field)
| cf_has_initial_geometry
| cf_has_optimized_geometry.

Definition conflict_fields : list conflict_field :=
  map cf_error stage1_error_fields
  ++ map cf_scalar scalar_fields
  ++ [cf_has_initial_geometry; cf_has_optimized_geometry].

Definition field_value (conf : Conformer) (f : conflict_field)
  : conflict_value :=
  match f with
  | cf_error e => CInt (error_value (errors_of conf) e)
  | cf_scalar s =>
      CFloat (match get_scalar s conf with
              | Some v => v
              | None => 0%Q
              end)
  | cf_has_initial_geometry => CBool (negb (is_empty (initial_geometries conf)))
  | cf_has_optimized_geometry => CBool (is_some (optimized_geometry conf))
  end.

(** Whether the two sources disagree on one column. *)
Definition field_mismatch (stage2 stage1 : Conformer) (f : conflict_field)
  : bool :=
  match f with
  | cf_error e =>
      negb (error_value (errors_of stage2) e =? error_value (errors_of stage1) e)
  | cf_scalar s => scalar_mismatch (get_scalar s stage2) (get_scalar s stage1)
  | cf_has_initial_geometry =>
      negb (Bool.eqb (is_empty (initial_geometries stage2))
                     (is_empty (initial_geometries stage1)))
  | cf_has_optimized_geometry =>
      negb (Bool.eqb (is_some (optimized_geometry stage2))
                     (is_some (optimized_geometry stage1)))
  end.

Definition has_conflict (stage2 stage1 : Conformer) : bool :=
  existsb (field_mismatch stage2 stage1) conflict_fields.

(** The conflict entry: the id, then the stage-1 values, then the stage-2
    values. *)
Definition conflict_row (stage2 stage1 : Conformer) : list conflict_value :=
  CInt (conformer_id stage2)
  :: map (field_value stage1) conflict_fields
  ++ map (field_value stage2) conflict_fields.

Definition or_else {A : Type} (first second : option A) : option A :=
  match first with
  | Some _ => first
  | None => second
  end.

Definition Bond_eq_dec (a b : Bond) : {a = b} + {a <> b}.
Proof. repeat decide equality. Defined.

Definition BondTopology_eq_dec (a b : BondTopology) : {a = b} + {a <> b}.
Proof.
  decide equality;
    [ apply Z.eq_dec | apply string_dec
    | apply (list_eq_dec Bond_eq_dec)
    | apply list_eq_dec; decide equality ].
Defined.

(** Modelled from the spec: merging a duplicate-marker (or the duplicate
    fields of any record) into [conf] (spec 4.1): the union of the
    [duplicate_of] lists, and a [duplicated_by] that must agree when both
    are set. *)
Definition merge_duplicate_fields (conf other : Conformer)
  : result Conformer :=
  if negb (duplicated_by conf =? 0) && negb (duplicated_by other =? 0)
     && negb (duplicated_by conf =? duplicated_by other)
  then Raise (ValueError DuplicatedByMismatch)
  else
    Ok (mkConformer (conformer_id conf) (bond_topologies conf)
          (initial_geometries conf) (optimized_geometry conf)
          (properties conf)
          (if duplicated_by conf =? 0
           then duplicated_by other else duplicated_by conf)
          (duplicate_of conf
           ++ filter (fun x => negb (existsb (Z.eqb x) (duplicate_of conf)))
                     (duplicate_of other))
          (fate conf)).

(** The properties of the merged record: the stage-2 value of every field
    stage 2 has, the stage-1 value of a field only stage 1 has. *)
Definition merge_properties (p2 p1 : Properties) : Properties :=
  mkProperties (errors p2)
    (or_else (initial_geometry_energy p2) (initial_geometry_energy p1))
    (or_else (initial_geometry_gradient_norm p2)
             (initial_geometry_gradient_norm p1))
    (or_else (optimized_geometry_energy p2) (optimized_geometry_energy p1))
    (or_else (optimized_geometry_gradient_norm p2)
             (optimized_geometry_gradient_norm p1))
    (normal_modes p2)
    (or_else (single_point_energy_pbe0d3_6_311gd p2)
             (single_point_energy_pbe0d3_6_311gd p1)).

Definition merge_optional_properties (p2 p1 : option Properties)
  : option Properties :=
  match p2, p1 with
  | Some a, Some b => Some (merge_properties a b)
  | Some a, None => Some a
  | None, _ => p1
  end.

(** Modelled from the spec: the merge of a stage-2 with a stage-1 record
    (spec 4.1). Each record must come with exactly one bond topology and one
    initial geometry ([test_multiple_bond_topologies],
    [test_multiple_initial_geometries]) and the two topologies must be
    equal; then stage 2 wins every field it has, and a disagreement is
    reported in one conflict row. *)
Definition _merge_stage2_stage1 (stage2 stage1 : Conformer)
  : result (Conformer * option (list conflict_value)) :=
  match bond_topologies stage2, bond_topologies stage1 with
  | [bt2], [bt1] =>
      match initial_geometries stage2, initial_geometries stage1 with
      | [_], [_] =>
          if BondTopology_eq_dec bt2 bt1 then
            merged <- merge_duplicate_fields
                        (mkConformer (conformer_id stage2)
                           (bond_topologies stage2)
                           (initial_geometries stage2)
                           (or_else (optimized_geometry stage2)
                                    (optimized_geometry stage1))
                           (merge_optional_properties (properties stage2)
                                                      (properties stage1))
                           (duplicated_by stage2) (duplicate_of stage2)
                           (fate stage2))
                        stage1 ;;
            Ok (merged,
                if has_conflict stage2 stage1
                then Some (conflict_row stage2 stage1)
                else None)
          else Raise (ValueError TopologyMismatch)
      | _, _ => Raise (ValueError BadInitialGeometryCount)
      end
  | _, _ => Raise (ValueError BadTopologyCount)
  end.

(** Modelled from the spec: [smu_utils_lib.merge_conformer] (spec 4.1). It
    returns the merged record and the conflict row, if any. Two records of
    stage 1, or two of stage 2, are refused first (the spec's
    DuplicateSourceError, a [ValueError] in [test_two_stage1] and
    [test_two_stage2]). *)
Definition merge_conformer (conf1 conf2 : Conformer)
  : result (Conformer * option (list conflict_value)) :=
  let source1 := conformer_source conf1 in
  let source2 := conformer_source conf2 in
  if _ConformerSource_eqb source1 source2
     && negb (_ConformerSource_eqb source1 DUPLICATE)
  then Raise (ValueError DuplicateSource)
  else
    match source1, source2 with
    | STAGE2, STAGE1 => _merge_stage2_stage1 conf1 conf2
    | STAGE1, STAGE2 => _merge_stage2_stage1 conf2 conf1
    | _, DUPLICATE =>
        merged <- merge_duplicate_fields conf1 conf2 ;; Ok (merged, None)
    | DUPLICATE, _ =>
        merged <- merge_duplicate_fields conf2 conf1 ;; Ok (merged, None)
    | _, _ => Raise (ValueError DuplicateSource)
    end.

(** ** Test fixtures

    The records that [get_stage1_conformer] and [get_stage2_conformer] parse
    come from data files that are not among the sources. The fixtures below
    carry the values the tests show for them: the id 618451001 and the ten
    compared values 1, 1, 1, 1, -406.51179, 0.052254, -406.522079, 2.5e-05,
    True, True; the topology and the geometries are placeholders. *)

Definition sample_topology : BondTopology :=
  mkBondTopology [ATOM_O; ATOM_H; ATOM_H]
    [mkBond 0 1 BOND_SINGLE; mkBond 0 2 BOND_SINGLE] "O" 618451.

Definition sample_geometry : Geometry :=
  mkGeometry [(0, 0, 0)%Q; (1, 0, 0)%Q; (0, 1, 0)%Q].

Definition stage1_conformer : Conformer :=
  mkConformer 618451001 [sample_topology] [sample_geometry]
    (Some sample_geometry)
    (Some (mkProperties (mkErrors 1 1 1 1 0 0 0)
             (Some (-40651179 # 100000)%Q) (Some (52254 # 1000000)%Q)
             (Some (-406522079 # 1000000)%Q) (Some (25 # 1000000)%Q)
             [] None))
    0 [] FATE_UNDEFINED.

Definition stage2_conformer : Conformer :=
  mkConformer 618451001 [sample_topology] [sample_geometry]
    (Some sample_geometry)
    (Some (mkProperties (mkErrors 1 1 1 1 1 1 0)
             (Some (-40651179 # 100000)%Q) (Some (52254 # 1000000)%Q)
             (Some (-406522079 # 1000000)%Q) (Some (25 # 1000000)%Q)
             [(1 # 2)%Q] (Some (-4065 # 10)%Q)))
    0 [] FATE_UNDEFINED.

(** [conformer.properties.errors.<field> = v] *)
Definition set_error (f : error_field) (v : Z) (conf : Conformer)
  : Conformer :=
  let e := errors_of conf in
  let e' :=
    match f with
    | f_error_nstat1 =>
        mkErrors v (error_nstatc e) (error_nstatt e) (error_frequencies e)
          (error_rotational_modes e) (error_atomic_analysis e) (error_nsvg09 e)
    | f_error_nstatc =>
        mkErrors (error_nstat1 e) v (error_nstatt e) (error_frequencies e)
          (error_rotational_modes e) (error_atomic_analysis e) (error_nsvg09 e)
    | f_error_nstatt =>
        mkErrors (error_nstat1 e) (error_nstatc e) v (error_frequencies e)
          (error_rotational_modes e) (error_atomic_analysis e) (error_nsvg09 e)
    | f_error_frequencies =>
        mkErrors (error_nstat1 e) (error_nstatc e) (error_nstatt e) v
          (error_rotational_modes e) (error_atomic_analysis e) (error_nsvg09 e)
    | f_error_rotational_modes =>
        mkErrors (error_nstat1 e) (error_nstatc e) (error_nstatt e)
          (error_frequencies e) v (error_atomic_analysis e) (error_nsvg09 e)
    | f_error_atomic_analysis =>
        mkErrors (error_nstat1 e) (error_nstatc e) (error_nstatt e)
          (error_frequencies e) (error_rotational_modes e) v (error_nsvg09 e)
    | f_error_nsvg09 =>
        mkErrors (error_nstat1 e) (error_nstatc e) (error_nstatt e)
          (error_frequencies e) (error_rotational_modes e)
          (error_atomic_analysis e) v
    end in
  let p' :=
    match properties conf with
    | Some p =>
        mkProperties e' (initial_geometry_energy p)
          (initial_geometry_gradient_norm p) (optimized_geometry_energy p)
          (optimized_geometry_gradient_norm p) (normal_modes p)
          (single_point_energy_pbe0d3_6_311gd p)
    | None => mkProperties e' None None None None [] None
    end in
  mkConformer (conformer_id conf) (bond_topologies conf)
    (initial_geometries conf) (optimized_geometry conf) (Some p')
    (duplicated_by conf) (duplicate_of conf) (fate conf).

(** [conformer.properties.<field>.value = v] *)
Definition set_scalar (f : scalar_field) (v : Q) (conf : Conformer)
  : Conformer :=
  let p :=
    match properties conf with
    | Some p => p
    | None => mkProperties default_errors None None None None [] None
    end in
  let p' :=
    match f with
    | f_initial_geometry_energy =>
        mkProperties (errors p) (Some v) (initial_geometry_gradient_norm p)
          (optimized_geometry_energy p) (optimized_geometry_gradient_norm p)
          (normal_modes p) (single_point_energy_pbe0d3_6_311gd p)
    | f_initial_geometry_gradient_norm =>
        mkProperties (errors p) (initial_geometry_energy p) (Some v)
          (optimized_geometry_energy p) (optimized_geometry_gradient_norm p)
          (normal_modes p) (single_point_energy_pbe0d3_6_311gd p)
    | f_optimized_geometry_energy =>
        mkProperties (errors p) (initial_geometry_energy p)
          (initial_geometry_gradient_norm p) (Some v)
          (optimized_geometry_gradient_norm p)
          (normal_modes p) (single_point_energy_pbe0d3_6_311gd p)
    | f_optimized_geometry_gradient_norm =>
        mkProperties (errors p) (initial_geometry_energy p)
          (initial_geometry_gradient_norm p) (optimized_geometry_energy p)
          (Some v)
          (normal_modes p) (single_point_energy_pbe0d3_6_311gd p)
    end in
  mkConformer (conformer_id conf) (bond_topologies conf)
    (initial_geometries conf) (optimized_geometry conf) (Some p')
    (duplicated_by conf) (duplicate_of conf) (fate conf).

(** [conformer.duplicated_by = v] *)
Definition set_duplicated_by (v : Z) (conf : Conformer) : Conformer :=
  mkConformer (conformer_id conf) (bond_topologies conf)
    (initial_geometries conf) (optimized_geometry conf) (properties conf)
    v (duplicate_of conf) (fate conf).

(** A duplicate-marker record, as [parse_equivalent_file] yields it. *)
Definition duplicate_marker (discard_cid kept_cid : Z) : Conformer :=
  mkConformer discard_cid [] [] None None kept_cid [] FATE_UNDEFINED.

(** A record of another stage-1 conformer of the same topology, marked as a
    duplicate of the fixture's id. *)
Definition duplicate_conformer : Conformer :=
  mkConformer 618451002 [sample_topology] [mkGeometry [(2, 0, 0)%Q]]
    None
    (Some (mkProperties (mkErrors 1 1 1 1 0 0 0) None None None None [] None))
    618451001 [] FATE_UNDEFINED.

(** Two summaries of the fixture's topology, as a record that succeeded and
    a record that was a same-topology duplicate give them. *)
Definition summary_success : BondTopologySummary :=
  mkSummary sample_topology 1 1 0 0 0 0 0 1 0 0.

Definition summary_duplicate : BondTopologySummary :=
  mkSummary sample_topology 1 0 1 0 0 0 0 0 0 0.

(** [conf.properties.normal_modes] *)
Definition normal_modes_of (conf : Conformer) : list Q :=
  match properties conf with
  | Some p => normal_modes p
  | None => []
  end.

(** ** Vocabulary of the statements *)

(** The members of a group other than the one that carries the key. *)
Definition others (key : Z) (conformers : list Conformer) : list Conformer :=
  filter (fun c => negb (conformer_id c =? key)) conformers.

(** The members of a group that carry the key. *)
Definition mains (key : Z) (conformers : list Conformer) : list Conformer :=
  filter (fun c => conformer_id c =? key) conformers.

(** The bond topology id is the conformer id without its last three
    digits. *)
Definition same_topology (key : Z) (c : Conformer) : bool :=
  key / 1000 =? conformer_id c / 1000.

(** The first initial geometry of a record, as a list of at most one. *)
Definition first_geometry (c : Conformer) : list Geometry :=
  firstn 1 (initial_geometries c).

(** A member that carries the key and has [duplicated_by] unset. *)
Definition unmarked_primary (key : Z) (c : Conformer) : bool :=
  (conformer_id c =? key) && (duplicated_by c =? 0).

(** The successful results of a list of outcomes. *)
Fixpoint emitted {A : Type} (outcomes : list (result A)) : list A :=
  match outcomes with
  | [] => []
  | Ok a :: rest => a :: emitted rest
  | Raise _ :: rest => emitted rest
  end.

(** The field-wise sum of two summaries, on the topology of the first. *)
Definition add_counts (s0 s1 : BondTopologySummary) : BondTopologySummary :=
  mkSummary (bond_topology s0)
    (count_attempted_conformers s0 + count_attempted_conformers s1)
    (count_kept_geometry s0 + count_kept_geometry s1)
    (count_duplicates_same_topology s0 + count_duplicates_same_topology s1)
    (count_duplicates_different_topology s0
     + count_duplicates_different_topology s1)
    (count_failed_geometry_optimization s0
     + count_failed_geometry_optimization s1)
    (count_missing_calculation s0 + count_missing_calculation s1)
    (count_calculation_with_error s0 + count_calculation_with_error s1)
    (count_calculation_success s0 + count_calculation_success s1)
    (count_detected_match_with_error s0 + count_detected_match_with_error s1)
    (count_detected_match_success s0 + count_detected_match_success s1).

(** A projection that [add_counts] adds field-wise. *)
Definition additive (p : BondTopologySummary -> Z) : Prop :=
  forall a b, p (add_counts a b) = p a + p b.

Definition topology_id (s : BondTopologySummary) : Z :=
  bond_topology_id (bond_topology s).

(** The values that arrive under a key, in order of arrival. *)
Definition members {V : Type} (k : Z) (kvs : list (Z * V)) : list V :=
  map snd (filter (fun kv => fst kv =? k) kvs).

(** The group filed under a key, empty when there is none. *)
Fixpoint group_of {V : Type} (k : Z) (groups : list (Z * list V)) : list V :=
  match groups with
  | [] => []
  | (k', vs) :: rest => if k' =? k then vs else group_of k rest
  end.

(** The error fields other than [f] raise no fault. *)
Definition no_other_error (f : error_field) (conf : Conformer) : Prop :=
  forall f',
    f' <> f ->
    field_signals_error f' (error_value (errors_of conf) f') = false.

(** What the merge of a stage-2 with a stage-1 record asks of the pair: one
    and the same bond topology in each, one initial geometry in each, and
    no two different [duplicated_by]. *)
Definition mergeable (stage2 stage1 : Conformer) : Prop :=
  (exists bt, bond_topologies stage2 = [bt] /\ bond_topologies stage1 = [bt])
  /\ (exists g2 g1,
        initial_geometries stage2 = [g2] /\ initial_geometries stage1 = [g1])
  /\ (duplicated_by stage2 = 0 \/ duplicated_by stage1 = 0
      \/ duplicated_by stage2 = duplicated_by stage1).

(** ** pipeline.py: the rest of the pipeline's own functions *)

(** What the pipeline's own DoFns raise or pass on: their two [ValueError]s,
    or whatever a function they call raised. *)
Inductive raised : Type :=
| MergedCIDMismatch           (* 'In merged CID {}, found CID {} instead' *)
| CompareSmilesTopologyCount  (* 'compare_smiles expects 1 bond topology...' *)
| FromCallee (e : exn).

Inductive outcome (A : Type) : Type :=
| Returned (a : A)
| Failed (r : raised).

Arguments Returned {A} a.
Arguments Failed {A} r.

Definition lift {A : Type} (c : result A) : outcome A :=
  match c with
  | Ok a => Returned a
  | Raise e => Failed (FromCallee e)
  end.

(** [parse_equivalent_file], for one line: [kept] and [discard] are the
    (bond topology id, conformer index) pairs that
    [smu_parser_lib.parse_long_identifier] reads from the two columns. *)
Definition parse_equivalent_line (kept discard : Z * Z) : Conformer :=
  let kept_cid := fst kept * 1000 + snd kept in
  let discard_cid := fst discard * 1000 + snd discard in
  mkConformer discard_cid [] [] None None kept_cid [] FATE_UNDEFINED.

Definition parse_equivalent_file (lines : list ((Z * Z) * (Z * Z)))
  : list Conformer :=
  map (fun line => parse_equivalent_line (fst line) (snd line)) lines.

(** What [MergeConformersFn.process] yields: the merged conformer on the
    main output ([None] is the [sentinel] object, which is what [reduce]
    returns for no conformer at all), then the tagged conflict rows. *)
Inductive merge_output : Type :=
| MergedConformer (conf : option Conformer)
| TaggedConflict (row : list conflict_value).

Section MergeConformersFn.

(** [smu_utils_lib.merge_conformer], whatever it does. *)
Variable merge_conformer_fn :
  Conformer -> Conformer -> result (Conformer * option (list conflict_value)).

(** [_merge_two_conformers]: the state is the accumulator of the reduction
    and the [conflicts] list the closure appends to. [if merge_conflict:]
    holds for a non-empty row. *)
Definition _merge_two_conformers
    (state : option Conformer * list (list conflict_value))
    (conf1 : Conformer)
  : result (option Conformer * list (list conflict_value)) :=
  match fst state with
  | None => Ok (Some conf1, snd state)
  | Some conf0 =>
      merged <- merge_conformer_fn conf0 conf1 ;;
      Ok (Some (fst merged),
          match snd merged with
          | Some (cell :: cells) => snd state ++ [cell :: cells]
          | _ => snd state
          end)
  end.

Definition MergeConformersFn_process (args : Z * list Conformer)
  : outcome (list merge_output) :=
  let conformer_id0 := fst args in
  let conformers := snd args in
  if forallb (fun c => conformer_id c =? conformer_id0) conformers then
    match reduce _merge_two_conformers conformers (None, []) with
    | Ok state =>
        Returned (MergedConformer (fst state)
                  :: map TaggedConflict (snd state))
    | Raise e => Failed (FromCallee e)
    end
  else Failed MergedCIDMismatch.

End MergeConformersFn.

Inductive SmilesCompareResult : Type :=
| MISSING
| MISMATCH
| MATCH.

(** What [UpdateConformerFn.process] yields: rows on the smiles output,
    the conformer on the main output. *)
Inductive update_output : Type :=
| TaggedSmiles (row : Z * SmilesCompareResult * string * string * string)
| UpdatedConformer (conf : Conformer).

(** [conformer.fate = v] *)
Definition set_fate (v : FateCategory) (conf : Conformer) : Conformer :=
  mkConformer (conformer_id conf) (bond_topologies conf)
    (initial_geometries conf) (optimized_geometry conf) (properties conf)
    (duplicated_by conf) (duplicate_of conf) v.

(** [bond_topology.smiles = v] *)
Definition set_smiles (v : string) (bt : BondTopology) : BondTopology :=
  mkBondTopology (atoms bt) (bonds bt) v (bond_topology_id bt).

(** [conformer.bond_topologies[0].smiles = v], for a list of one. *)
Definition set_bond_topologies (bts : list BondTopology) (conf : Conformer)
  : Conformer :=
  mkConformer (conformer_id conf) bts
    (initial_geometries conf) (optimized_geometry conf) (properties conf)
    (duplicated_by conf) (duplicate_of conf) (fate conf).

Section UpdateConformerFn.

(** [smu_utils_lib.determine_fate] and
    [smu_utils_lib.bond_topology_smiles_comparison], whatever they do. *)
Variable determine_fate_fn : Conformer -> result FateCategory.
Variable bond_topology_smiles_comparison :
  BondTopology -> result (SmilesCompareResult * string * string).

(** [_compare_smiles]: the rows it yields and the conformer as it leaves
    it. *)
Definition _compare_smiles (conformer : Conformer)
  : outcome (list update_output * Conformer) :=
  match bond_topologies conformer with
  | [bt] =>
      match bond_topology_smiles_comparison bt with
      | Ok (MATCH, _, _) => Returned ([], conformer)
      | Ok (compare, smiles_with_h, smiles_without_h) =>
          Returned
            ([TaggedSmiles (conformer_id conformer, compare, smiles bt,
                            smiles_with_h, smiles_without_h)],
             set_bond_topologies [set_smiles smiles_without_h bt] conformer)
      | Raise e => Failed (FromCallee e)
      end
  | _ => Failed CompareSmilesTopologyCount
  end.

Definition UpdateConformerFn_process (conformer : Conformer)
  : outcome (list update_output) :=
  match determine_fate_fn conformer with
  | Ok fate0 =>
      match _compare_smiles (set_fate fate0 conformer) with
      | Returned (rows, updated) => Returned (rows ++ [UpdatedConformer updated])
      | Failed r => Failed r
      end
  | Raise e => Failed (FromCallee e)
  end.

End UpdateConformerFn.

(** [to_keyed_bond_topology_summary]: [summaries] is what
    [smu_utils_lib.conformer_to_bond_topology_summaries] yields for the
    conformer. *)
Definition to_keyed_bond_topology_summary
    (summaries : list BondTopologySummary) : list (Z * BondTopologySummary) :=
  map (fun summary =>
         (bond_topology_id (bond_topology summary), summary)) summaries.

(** Beam's [CombinePerKey], with one call of the combiner per group. *)
Definition CombinePerKey {V R : Type} (combine : list V -> R)
    (kvs : list (Z * V)) : list (Z * R) :=
  map (fun kg => (fst kg, combine (snd kg))) (GroupByKey kvs).

(** The summaries that reach 'CombineByBTID' in [pipeline]: the bare ones
    of the topology file and those of the final conformers, flattened. *)
Definition combined_bt_summaries (topologies : list BondTopology)
    (conformer_summaries : list (list BondTopologySummary))
  : list (Z * result (option BondTopologySummary)) :=
  CombinePerKey
    (fun summaries => merge_bond_topology_summaries summaries
                                                    count_field_names)
    (bond_topology_summaries_from_csv topologies
     ++ flat_map to_keyed_bond_topology_summary conformer_summaries).

(** [str(n)] for an integer. *)
Definition str_int (n : Z) : string := NilZero.string_of_int (Z.to_int n).

(** [int(s)] for the decimal strings it accepts. *)
Definition int_str (s : string) : option Z :=
  option_map Z.of_int (NilZero.int_of_string s).

(** [[f(x) for x in xs]] for an [f] that may raise. *)
Fixpoint map_result {A B : Type} (f : A -> result B) (xs : list A)
  : result (list B) :=
  match xs with
  | [] => Ok []
  | x :: rest => y <- f x ;; ys <- map_result f rest ;; Ok (y :: ys)
  end.

(** [csv_format_bond_topology_summary] *)
Definition csv_format_bond_topology_summary (summary : BondTopologySummary)
    (field_names : list string) : result string :=
  values <- map_result (getattr summary) field_names ;;
  Ok (String.concat ","
        (str_int (bond_topology_id (bond_topology summary))
         :: map str_int values)).

(** The [header] of the summary file in
    [CombineAndWriteBondTopologySummary.expand]. *)
Definition bt_summary_header (field_names : list string) : string :=
  ("bt_id," ++ String.concat "," field_names)%string.

(** [s.split(sep)] for a separator of one character. *)
Fixpoint split (sep : ascii) (s : string) : list string :=
  match s with
  | EmptyString => [EmptyString]
  | String c rest =>
      if Ascii.eqb c sep then EmptyString :: split sep rest
      else
        match split sep rest with
        | [] => [String c EmptyString]
        | column :: columns => String c column :: columns
        end
  end.

(** [sep in s] *)
Fixpoint contains (sep : ascii) (s : string) : bool :=
  match s with
  | EmptyString => false
  | String c rest => Ascii.eqb c sep || contains sep rest
  end.

(** The records that point at a key without carrying it. *)
Definition pointing_at (key : Z) (conformers : list Conformer)
  : list Conformer :=
  filter (fun c => negb (conformer_id c =? key)
                   && (duplicated_by c >? 0) && (duplicated_by c =? key))
         conformers.

(** The outcome of the duplicate pass for one key. *)
Definition resolved_under (key : Z) (updated_conformers : list Conformer)
  : result Conformer :=
  merge_duplicate_information key
    (members key
       (flat_map generate_keyed_conformers_for_duplicates
                 updated_conformers)).

(** * Properties *)

(** ** The loop of [merge_duplicate_information] *)

Section AbsorbDuplicates.

Variable key : Z.

Lemma others_cons_main c l :
  (conformer_id c =? key) = true -> others key (c :: l) = others key l.
Proof. intros H. unfold others. simpl. now rewrite H. Qed.

Lemma others_cons_other c l :
  (conformer_id c =? key) = false -> others key (c :: l) = c :: others key l.
Proof. intros H. unfold others. simpl. now rewrite H. Qed.

(** With every other member pointing at the key and every same-topology
    member holding a geometry, the loop runs to its end; the result is the
    main record with the ids and the first geometries appended in order. *)
Lemma absorb_duplicates_ok conformers : forall main,
  Forall (fun c => duplicated_by c = key) (others key conformers) ->
  Forall (fun c => same_topology key c = true -> initial_geometries c <> [])
         (others key conformers) ->
  absorb_duplicates key main conformers =
  Ok (mkConformer (conformer_id main) (bond_topologies main)
        (initial_geometries main
         ++ flat_map first_geometry
              (filter (same_topology key) (others key conformers)))
        (optimized_geometry main) (properties main) (duplicated_by main)
        (duplicate_of main ++ map conformer_id (others key conformers))
        (fate main)).
Proof.
  induction conformers as [|c rest IH]; intros main Hdup Hgeo.
  - simpl. rewrite !app_nil_r. now destruct main.
  - simpl. destruct (conformer_id c =? key) eqn:Hid.
    + rewrite (others_cons_main _ _ Hid) in *. now apply IH.
    + rewrite (others_cons_other _ _ Hid) in *.
      pose proof (Forall_inv Hdup) as Hc. apply Forall_inv_tail in Hdup.
      pose proof (Forall_inv Hgeo) as Hg. apply Forall_inv_tail in Hgeo.
      simpl in Hc, Hg. rewrite Hc at 1. rewrite Z.eqb_refl.
      cbn [negb filter flat_map map].
      change (key / 1000 =? conformer_id c / 1000)
        with (same_topology key c).
      destruct (same_topology key c) eqn:Htop.
      * destruct (initial_geometries c) as [|g gs] eqn:Hgs.
        { now exfalso; apply Hg. }
        rewrite IH by assumption. cbn [flat_map].
        unfold first_geometry at 2. rewrite Hgs.
        cbn. now rewrite <- !app_assoc.
      * rewrite IH by assumption. cbn. now rewrite <- !app_assoc.
Qed.

(** A same-topology member without a geometry stops the loop with an
    [IndexError], when nothing before it is refused. *)
Lemma absorb_duplicates_index_error conformers : forall main,
  Forall (fun c => duplicated_by c = key) (others key conformers) ->
  Exists (fun c => same_topology key c = true /\ initial_geometries c = [])
         (others key conformers) ->
  absorb_duplicates key main conformers = Raise IndexError.
Proof.
  induction conformers as [|c rest IH]; intros main Hdup Hex.
  - inversion Hex.
  - simpl. destruct (conformer_id c =? key) eqn:Hid.
    + rewrite (others_cons_main _ _ Hid) in *. now apply IH.
    + rewrite (others_cons_other _ _ Hid) in *.
      pose proof (Forall_inv Hdup) as Hc. apply Forall_inv_tail in Hdup.
      simpl in Hc. rewrite Hc at 1. rewrite Z.eqb_refl. simpl.
      apply Exists_cons in Hex.
      destruct (key / 1000 =? conformer_id c / 1000) eqn:Htop.
      * destruct (initial_geometries c) as [|g gs] eqn:Hgs; [reflexivity|].
        apply IH; [assumption|].
        destruct Hex as [[_ Hnil]|Hex]; [congruence | assumption].
      * apply IH; [assumption|].
        destruct Hex as [[Hsame _]|Hex]; [|assumption].
        unfold same_topology in Hsame. congruence.
Qed.

(** Whatever the group, a record the loop returns has the id, the
    [duplicated_by] and the other untouched fields of the main record. *)
Lemma absorb_duplicates_frame conformers : forall main r,
  absorb_duplicates key main conformers = Ok r ->
  conformer_id r = conformer_id main
  /\ duplicated_by r = duplicated_by main
  /\ bond_topologies r = bond_topologies main
  /\ optimized_geometry r = optimized_geometry main
  /\ properties r = properties main
  /\ fate r = fate main.
Proof.
  induction conformers as [|c rest IH]; intros main r H; simpl in H.
  - injection H as <-. repeat split.
  - destruct (conformer_id c =? key); [now apply IH|].
    destruct (negb (duplicated_by c =? key)); [discriminate|].
    destruct (key / 1000 =? conformer_id c / 1000).
    + destruct (initial_geometries c); [discriminate|].
      apply IH in H. exact H.
    + apply IH in H. exact H.
Qed.

(** A same-topology member without a geometry: no record is returned,
    whatever else the group holds. *)
Lemma absorb_duplicates_never_ok conformers : forall main r,
  Exists (fun c => same_topology key c = true /\ initial_geometries c = [])
         (others key conformers) ->
  absorb_duplicates key main conformers <> Ok r.
Proof.
  induction conformers as [|c rest IH]; intros main r Hex.
  - inversion Hex.
  - simpl. destruct (conformer_id c =? key) eqn:Hid.
    + rewrite (others_cons_main _ _ Hid) in Hex. now apply IH.
    + rewrite (others_cons_other _ _ Hid) in Hex.
      destruct (negb (duplicated_by c =? key)); [discriminate|].
      destruct (key / 1000 =? conformer_id c / 1000) eqn:Htop.
      * destruct (initial_geometries c) as [|g gs] eqn:Hgs; [discriminate|].
        apply IH.
        apply Exists_cons in Hex.
        destruct Hex as [[_ Hnil]|Hex]; [congruence | assumption].
      * apply IH.
        apply Exists_cons in Hex.
        destruct Hex as [[Hsame _]|Hex]; [|assumption].
        unfold same_topology in Hsame. congruence.
Qed.

End AbsorbDuplicates.

(** ** [merge_duplicate_information] *)

Lemma mains_length_one key conformers main :
  mains key conformers = [main] ->
  In main conformers /\ conformer_id main = key.
Proof.
  intros H.
  assert (Hin : In main (mains key conformers)) by (rewrite H; now left).
  apply filter_In in Hin. destruct Hin as [Hin Hid].
  split; [assumption | now apply Z.eqb_eq].
Qed.

Lemma merge_duplicate_information_inv key conformers r :
  merge_duplicate_information key conformers = Ok r ->
  exists main,
    mains key conformers = [main]
    /\ absorb_duplicates key main conformers = Ok r.
Proof.
  unfold merge_duplicate_information. fold (mains key conformers).
  destruct (mains key conformers) as [|main [|other rest]]; try discriminate.
  intros H. now exists main.
Qed.

Lemma flat_map_first_geometry_length l :
  Forall (fun c => initial_geometries c <> []) l ->
  List.length (flat_map first_geometry l) = List.length l.
Proof.
  induction 1 as [|c l Hc _ IH]; [reflexivity|].
  simpl. unfold first_geometry at 1.
  destruct (initial_geometries c); [contradiction|].
  simpl. now rewrite IH.
Qed.

(** In a group in order whose same-topology members each hold a geometry,
    the call returns the main record with the ids and the first geometries
    appended. *)
Lemma merge_duplicate_information_ok key conformers main :
  mains key conformers = [main] ->
  Forall (fun c => duplicated_by c = key) (others key conformers) ->
  Forall (fun c => same_topology key c = true -> initial_geometries c <> [])
         (others key conformers) ->
  merge_duplicate_information key conformers =
  Ok (mkConformer (conformer_id main) (bond_topologies main)
        (initial_geometries main
         ++ flat_map first_geometry
              (filter (same_topology key) (others key conformers)))
        (optimized_geometry main) (properties main) (duplicated_by main)
        (duplicate_of main ++ map conformer_id (others key conformers))
        (fate main)).
Proof.
  intros Hmain Hdup Hgeo.
  unfold merge_duplicate_information. fold (mains key conformers).
  rewrite Hmain. now apply absorb_duplicates_ok.
Qed.

(** A record the call returns has the key as its id and the
    [duplicated_by] of the one member that carries the key. *)
Lemma merge_duplicate_information_frame key conformers r :
  merge_duplicate_information key conformers = Ok r ->
  exists main,
    mains key conformers = [main]
    /\ conformer_id r = key
    /\ duplicated_by r = duplicated_by main.
Proof.
  intros Hr. apply merge_duplicate_information_inv in Hr.
  destruct Hr as (main & Hmain & Hr). exists main.
  apply absorb_duplicates_frame in Hr.
  destruct Hr as (Hid & Hdup & _).
  apply mains_length_one in Hmain as Hm. destruct Hm as [_ Hkey].
  split; [assumption|]. split; [congruence | assumption].
Qed.

(** C8: in a group with one record of the key's id and n others that point
    at the key, every other record's id is appended to the main record's
    [duplicate_of]; the first initial geometry of every other record of the
    same topology is appended to its [initial_geometries], which grow by the
    number of such records; a record of another topology adds no
    geometry. *)
Theorem merge_duplicate_information_absorbs
    (key : Z) (conformers : list Conformer) (main : Conformer) :
  mains key conformers = [main] ->
  Forall (fun c => duplicated_by c = key) (others key conformers) ->
  Forall (fun c => same_topology key c = true -> initial_geometries c <> [])
         (others key conformers) ->
  exists r,
    merge_duplicate_information key conformers = Ok r
    /\ duplicate_of r
       = duplicate_of main ++ map conformer_id (others key conformers)
    /\ List.length (duplicate_of r)
       = (List.length (duplicate_of main) + List.length (others key conformers))%nat
    /\ initial_geometries r
       = initial_geometries main
         ++ flat_map first_geometry
              (filter (same_topology key) (others key conformers))
    /\ List.length (initial_geometries r)
       = (List.length (initial_geometries main)
          + List.length (filter (same_topology key) (others key conformers)))%nat
    /\ (Forall (fun c => same_topology key c = false)
               (others key conformers) ->
        initial_geometries r = initial_geometries main).
Proof.
  intros Hmain Hdup Hgeo.
  rewrite (merge_duplicate_information_ok key conformers main Hmain Hdup Hgeo).
  eexists. split; [reflexivity|]. cbn [duplicate_of initial_geometries].
  split; [reflexivity|].
  split; [now rewrite length_app, length_map|].
  split; [reflexivity|].
  split.
  - rewrite length_app, flat_map_first_geometry_length; [reflexivity|].
    apply Forall_forall. intros c Hc. apply filter_In in Hc.
    destruct Hc as [Hc Hsame].
    rewrite Forall_forall in Hgeo. now apply Hgeo.
  - intros Hdiff.
    replace (filter (same_topology key) (others key conformers))
      with (@nil Conformer); [now rewrite app_nil_r|].
    symmetry. clear Hdup Hgeo.
    induction Hdiff as [|c l Hc _ IH]; [reflexivity|].
    simpl. now rewrite Hc.
Qed.

(** The group of the fixture's id: the stage-2 record, a duplicate of the
    same topology and a duplicate of another topology. *)
Lemma merge_duplicate_information_absorbs_witness :
  exists r,
    merge_duplicate_information 618451001
      [stage2_conformer; duplicate_conformer;
       duplicate_marker 618999001 618451001] = Ok r
    /\ duplicate_of r = [618451002; 618999001]
    /\ List.length (initial_geometries r) = 2%nat.
Proof.
  destruct (merge_duplicate_information_absorbs 618451001
              [stage2_conformer; duplicate_conformer;
               duplicate_marker 618999001 618451001] stage2_conformer)
    as (r & Hr & Hdup & _ & _ & Hlen & _).
  - reflexivity.
  - repeat constructor.
  - repeat constructor; intros H; discriminate.
  - exists r. split; [exact Hr|]. split; [exact Hdup | exact Hlen].
Defined.

(** C10: the pass reads the first initial geometry of every other record of
    the main record's topology. If one of them has none, no record is
    returned, and in a group that is otherwise in order the call raises
    [IndexError]; if each of them has one, the call returns a record. *)
Theorem merge_duplicate_information_first_geometry
    (key : Z) (conformers : list Conformer) :
  (Exists (fun c => same_topology key c = true /\ initial_geometries c = [])
          (others key conformers) ->
   forall r, merge_duplicate_information key conformers <> Ok r)
  /\ (forall main,
        mains key conformers = [main] ->
        Forall (fun c => duplicated_by c = key) (others key conformers) ->
        (Exists (fun c => same_topology key c = true
                          /\ initial_geometries c = [])
                (others key conformers) ->
         merge_duplicate_information key conformers = Raise IndexError)
        /\ (Forall (fun c => same_topology key c = true ->
                             initial_geometries c <> [])
                   (others key conformers) ->
            exists r, merge_duplicate_information key conformers = Ok r)).
Proof.
  split.
  - intros Hex r Hr.
    apply merge_duplicate_information_inv in Hr.
    destruct Hr as (main & _ & Hr).
    now apply (absorb_duplicates_never_ok key conformers main r Hex).
  - intros main Hmain Hdup. split.
    + intros Hex. unfold merge_duplicate_information.
      fold (mains key conformers). rewrite Hmain.
      now apply absorb_duplicates_index_error.
    + intros Hgeo.
      rewrite (merge_duplicate_information_ok key conformers main
                 Hmain Hdup Hgeo).
      now eexists.
Qed.

(** The stage-2 record with a bare duplicate marker of its own topology:
    the marker has no initial geometry. *)
Lemma merge_duplicate_information_first_geometry_witness :
  merge_duplicate_information 618451001
    [stage2_conformer; duplicate_marker 618451002 618451001]
  = Raise IndexError.
Proof.
  apply (proj2 (merge_duplicate_information_first_geometry 618451001
                  [stage2_conformer; duplicate_marker 618451002 618451001])
           stage2_conformer).
  - reflexivity.
  - repeat constructor.
  - apply Exists_cons_hd. split; reflexivity.
Defined.

(** C7, as the code has it: the group must hold exactly one record whose id
    is the key. With none or several the call raises [ValueError] and
    returns no record; a record it returns has the id and the
    [duplicated_by] of that one member, whose own [duplicated_by] is not
    looked at. *)
Theorem merge_duplicate_information_one_main
    (key : Z) (conformers : list Conformer) :
  (List.length (mains key conformers) <> 1%nat ->
   merge_duplicate_information key conformers
   = Raise (ValueError ExpectedOneConformer))
  /\ (forall r,
        merge_duplicate_information key conformers = Ok r ->
        exists main,
          mains key conformers = [main]
          /\ conformer_id r = key
          /\ duplicated_by r = duplicated_by main).
Proof.
  split.
  - intros Hlen. unfold merge_duplicate_information.
    fold (mains key conformers).
    destruct (mains key conformers) as [|main [|other rest]];
      [reflexivity | now exfalso; apply Hlen | reflexivity].
  - intros r Hr. now apply merge_duplicate_information_frame.
Qed.

(** A group with two records of the key's id, and a group with none. *)
Lemma merge_duplicate_information_one_main_witness :
  merge_duplicate_information 618451001 [stage1_conformer; stage2_conformer]
  = Raise (ValueError ExpectedOneConformer)
  /\ merge_duplicate_information 618451001 [duplicate_conformer]
     = Raise (ValueError ExpectedOneConformer).
Proof.
  split.
  - apply (proj1 (merge_duplicate_information_one_main 618451001
                    [stage1_conformer; stage2_conformer])).
    simpl. lia.
  - apply (proj1 (merge_duplicate_information_one_main 618451001
                    [duplicate_conformer])).
    simpl. lia.
Defined.

(** C7, as stated, fails: the group a duplicate forms under its own id has
    no member that carries the key with [duplicated_by] unset, and yet it
    resolves, to the duplicate itself. *)
Lemma duplicate_resolves_under_its_own_id :
  filter (unmarked_primary 618451002) [duplicate_conformer] = []
  /\ merge_duplicate_information 618451002 [duplicate_conformer]
     = Ok duplicate_conformer.
Proof. split; reflexivity. Qed.

(** ** [GroupByKey] *)

Section GroupByKeyFacts.

Variable V : Type.

Lemma group_of_insert k (v : V) groups : forall k',
  group_of k' (group_insert k v groups)
  = if k' =? k then group_of k' groups ++ [v] else group_of k' groups.
Proof.
  induction groups as [|[k0 vs] rest IH]; intros k'; simpl.
  - rewrite (Z.eqb_sym k k'). now destruct (k' =? k).
  - destruct (k0 =? k) eqn:H0; simpl.
    + apply Z.eqb_eq in H0. subst k0. rewrite (Z.eqb_sym k k').
      now destruct (k' =? k).
    + rewrite IH. destruct (k0 =? k') eqn:H1; [|reflexivity].
      apply Z.eqb_eq in H1. subst k0. now rewrite H0.
Qed.

Lemma group_insert_keys k (v : V) groups : forall k',
  In k' (map fst (group_insert k v groups))
  <-> k' = k \/ In k' (map fst groups).
Proof.
  induction groups as [|[k0 vs] rest IH]; intros k'; simpl.
  - intuition.
  - destruct (k0 =? k) eqn:H0; simpl.
    + apply Z.eqb_eq in H0. subst k0. intuition.
    + rewrite IH. intuition.
Qed.

Lemma group_insert_NoDup k (v : V) groups :
  NoDup (map fst groups) -> NoDup (map fst (group_insert k v groups)).
Proof.
  induction groups as [|[k0 vs] rest IH]; simpl; intros H.
  - constructor; [intros [] | constructor].
  - inversion H as [|? ? Hnotin Hrest]; subst.
    destruct (k0 =? k) eqn:H0; simpl.
    + now constructor.
    + constructor; [|now apply IH].
      rewrite group_insert_keys. intros [->|Hin]; [|contradiction].
      now rewrite Z.eqb_refl in H0.
Qed.

Lemma group_of_In k (g : list V) groups :
  NoDup (map fst groups) -> In (k, g) groups -> group_of k groups = g.
Proof.
  induction groups as [|[k0 vs] rest IH]; simpl; intros Hnd Hin; [easy|].
  inversion Hnd as [|? ? Hnotin Hrest]; subst.
  destruct Hin as [Heq|Hin].
  - injection Heq as -> ->. now rewrite Z.eqb_refl.
  - destruct (k0 =? k) eqn:H0; [|now apply IH].
    apply Z.eqb_eq in H0. subst k0. exfalso. apply Hnotin.
    now apply (in_map fst) in Hin.
Qed.

Lemma members_app k (l1 l2 : list (Z * V)) :
  members k (l1 ++ l2) = members k l1 ++ members k l2.
Proof. unfold members. now rewrite filter_app, map_app. Qed.

Lemma fold_group_insert (kvs : list (Z * V)) : forall acc,
  let groups :=
    fold_left (fun groups kv => group_insert (fst kv) (snd kv) groups)
              kvs acc in
  (NoDup (map fst acc) -> NoDup (map fst groups))
  /\ (forall k, In k (map fst groups)
                <-> In k (map fst acc) \/ In k (map fst kvs))
  /\ (forall k, group_of k groups = group_of k acc ++ members k kvs).
Proof.
  induction kvs as [|[k0 v0] rest IH]; intros acc; simpl.
  - split; [easy|]. split; [intuition|].
    intros k. unfold members. simpl. now rewrite app_nil_r.
  - specialize (IH (group_insert k0 v0 acc)). simpl in IH.
    destruct IH as (IH1 & IH2 & IH3). split; [|split].
    + intros H. now apply IH1, group_insert_NoDup.
    + intros k. rewrite IH2, group_insert_keys. intuition.
    + intros k. rewrite IH3, group_of_insert.
      unfold members. simpl. rewrite (Z.eqb_sym k0 k).
      destruct (k =? k0); simpl; [now rewrite <- app_assoc | reflexivity].
Qed.

(** The keys of the groups are the keys that arrived, each once, and the
    group of a key holds the values that arrived under it. *)
Lemma GroupByKey_spec (kvs : list (Z * V)) :
  NoDup (map fst (GroupByKey kvs))
  /\ (forall k, In k (map fst (GroupByKey kvs)) <-> In k (map fst kvs))
  /\ (forall k g, In (k, g) (GroupByKey kvs) -> g = members k kvs).
Proof.
  destruct (fold_group_insert kvs []) as (H1 & H2 & H3).
  fold (GroupByKey kvs) in H1, H2, H3. simpl in *.
  assert (Hnd : NoDup (map fst (GroupByKey kvs))) by (apply H1; constructor).
  split; [assumption|]. split.
  - intros k. rewrite H2. intuition.
  - intros k g Hin. rewrite <- (group_of_In k g _ Hnd Hin). apply H3.
Qed.

End GroupByKeyFacts.

(** ** The duplicate-resolution pass as a whole *)

(** Who arrives under a key: the record of that id and the records that
    point at it. *)
Lemma members_keyed k c updated :
  In c (members k (flat_map generate_keyed_conformers_for_duplicates updated))
  <-> In c updated
      /\ (conformer_id c = k
          \/ ((duplicated_by c >? 0) = true /\ duplicated_by c = k)).
Proof.
  unfold members. rewrite in_map_iff. split.
  - intros ([k' c'] & Heq & Hin). simpl in Heq. subst c'.
    apply filter_In in Hin. destruct Hin as [Hin Hk]. simpl in Hk.
    apply Z.eqb_eq in Hk. subst k'.
    apply in_flat_map in Hin. destruct Hin as (c0 & Hc0 & Hin).
    unfold generate_keyed_conformers_for_duplicates in Hin.
    destruct Hin as [Heq|Hin].
    + injection Heq as <- <-. auto.
    + destruct (duplicated_by c0 >? 0) eqn:Hd; [|easy].
      destruct Hin as [Heq|[]]. injection Heq as Hk <-. auto.
  - intros [Hin Hk]. exists (k, c). split; [reflexivity|].
    apply filter_In. simpl. split; [|apply Z.eqb_refl].
    apply in_flat_map. exists c. split; [assumption|].
    unfold generate_keyed_conformers_for_duplicates.
    destruct Hk as [<-|[Hd <-]]; [now left|].
    rewrite Hd. right. now left.
Qed.

(** What a group that resolves returns: the record of the key's id among
    the input, with its id and its [duplicated_by]. *)
Lemma resolved_group updated k g r :
  In (k, g)
     (GroupByKey
        (flat_map generate_keyed_conformers_for_duplicates updated)) ->
  merge_duplicate_information k g = Ok r ->
  exists main,
    In main updated /\ mains k g = [main]
    /\ conformer_id main = k /\ conformer_id r = k
    /\ duplicated_by r = duplicated_by main.
Proof.
  intros Hin Hr.
  destruct (GroupByKey_spec Conformer
              (flat_map generate_keyed_conformers_for_duplicates updated))
    as (_ & _ & Hg).
  apply Hg in Hin. subst g.
  destruct (merge_duplicate_information_frame k _ r Hr)
    as (main & Hmain & Hid & Hdup).
  exists main. destruct (mains_length_one _ _ _ Hmain) as [Hm Hk].
  apply members_keyed in Hm. intuition.
Qed.

Lemma emitted_In {A : Type} (outcomes : list (result A)) (a : A) :
  In a (emitted outcomes) <-> In (Ok a) outcomes.
Proof.
  induction outcomes as [|[x|e] rest IH]; simpl.
  - reflexivity.
  - rewrite IH. split; intros [H|H]; auto; left; congruence.
  - rewrite IH. split; [auto | intros [H|H]; [discriminate | assumption]].
Qed.

Lemma emitted_map_Ok {A : Type} (l : list A) : emitted (map Ok l) = l.
Proof. induction l; simpl; congruence. Qed.

(** The ids of the emitted records are keys of the groups, in order and
    without repetition. *)
Lemma emitted_ids_NoDup updated (groups : list (Z * list Conformer)) :
  (forall k g, In (k, g) groups ->
     In (k, g)
        (GroupByKey
           (flat_map generate_keyed_conformers_for_duplicates updated))) ->
  NoDup (map fst groups) ->
  NoDup (map conformer_id
           (emitted
              (map (fun kg => merge_duplicate_information (fst kg) (snd kg))
                   groups)))
  /\ (forall r,
        In r (emitted
                (map (fun kg =>
                        merge_duplicate_information (fst kg) (snd kg))
                     groups)) ->
        In (conformer_id r) (map fst groups)).
Proof.
  induction groups as [|[k g] rest IH]; simpl; intros Hsub Hnd.
  - split; [constructor | easy].
  - inversion Hnd as [|? ? Hnotin Hrest]; subst.
    destruct IH as [IH1 IH2]; [intros; apply Hsub; now right | assumption |].
    destruct (merge_duplicate_information k g) as [r|e] eqn:Hr;
      [|split; [assumption | intros r Hin; right; now apply IH2]].
    destruct (resolved_group updated k g r) as (_ & _ & _ & _ & Hid & _);
      [apply Hsub; now left | assumption |].
    simpl. split.
    + constructor; [|assumption].
      rewrite Hid. intros Hin. apply in_map_iff in Hin.
      destruct Hin as (r' & Hid' & Hin). apply IH2 in Hin. congruence.
    + intros r' [<-|Hin]; [now left | right; now apply IH2].
Qed.

(** C2, as the code has it: the pass emits at most one record per conformer
    id, and an emitted record carries the id and the [duplicated_by] of the
    input record of that id. When every group resolves, every input record
    is emitted under its own id with its [duplicated_by] unchanged, so a
    record marked as a duplicate stays in the output. *)
Theorem final_conformers_keep_marked_duplicates (updated : list Conformer) :
  NoDup (map conformer_id (emitted (final_conformers updated)))
  /\ (forall r,
        In r (emitted (final_conformers updated)) ->
        exists c,
          In c updated /\ conformer_id r = conformer_id c
          /\ duplicated_by r = duplicated_by c)
  /\ (forall out,
        final_conformers updated = map Ok out ->
        forall c,
          In c updated ->
          exists r,
            In r out /\ conformer_id r = conformer_id c
            /\ duplicated_by r = duplicated_by c).
Proof.
  set (kvs := flat_map generate_keyed_conformers_for_duplicates updated).
  destruct (GroupByKey_spec Conformer kvs) as (Hnd & Hkeys & Hgroup).
  assert (Hres : forall r,
             In r (emitted (final_conformers updated)) ->
             exists k g, In (k, g) (GroupByKey kvs)
                         /\ merge_duplicate_information k g = Ok r).
  { intros r Hin. apply emitted_In in Hin.
    unfold final_conformers in Hin. apply in_map_iff in Hin.
    destruct Hin as ([k g] & Hr & Hin). now exists k, g. }
  split; [|split].
  - now apply (emitted_ids_NoDup updated (GroupByKey kvs)).
  - intros r Hin. destruct (Hres r Hin) as (k & g & Hin' & Hr).
    destruct (resolved_group updated k g r Hin' Hr)
      as (main & Hm & _ & Hk & Hid & Hdup).
    exists main. repeat split; congruence.
  - intros out Hout c Hc.
    assert (Hkey : In (conformer_id c) (map fst (GroupByKey kvs))).
    { apply Hkeys. apply in_map_iff. exists (conformer_id c, c).
      split; [reflexivity|]. apply in_flat_map. exists c.
      split; [assumption | now left]. }
    apply in_map_iff in Hkey. destruct Hkey as ([k g] & Hk & Hin).
    simpl in Hk. subst k.
    assert (Hok : In (merge_duplicate_information (conformer_id c) g)
                     (map Ok out)).
    { rewrite <- Hout. unfold final_conformers. fold kvs.
      apply in_map_iff. now exists (conformer_id c, g). }
    apply in_map_iff in Hok. destruct Hok as (r & Hr & Hrin).
    symmetry in Hr.
    destruct (resolved_group updated _ g r Hin Hr)
      as (main & _ & Hmain & _ & Hid & Hdup).
    assert (Hcg : In c (mains (conformer_id c) g)).
    { apply filter_In. split; [|apply Z.eqb_refl].
      rewrite (Hgroup _ _ Hin). apply members_keyed. auto. }
    rewrite Hmain in Hcg. destruct Hcg as [->|[]].
    exists r. auto.
Qed.

(** The stage-2 record and its duplicate both come out, the duplicate with
    [duplicated_by] still set. *)
Lemma final_conformers_keep_marked_duplicates_witness :
  exists r,
    In r (emitted (final_conformers [stage2_conformer; duplicate_conformer]))
    /\ conformer_id r = 618451002
    /\ duplicated_by r = 618451001.
Proof.
  destruct (proj2 (proj2 (final_conformers_keep_marked_duplicates
                            [stage2_conformer; duplicate_conformer]))
              (emitted (final_conformers
                          [stage2_conformer; duplicate_conformer]))
              eq_refl duplicate_conformer)
    as (r & Hin & Hid & Hdup).
  - right. now left.
  - exists r. split; [exact Hin|]. split; [exact Hid | exact Hdup].
Defined.

(** C2, as stated, fails: after the pass the output still holds the record
    marked as a duplicate, next to the record it was folded into. *)
Lemma marked_duplicate_is_emitted :
  final_conformers [stage2_conformer; duplicate_conformer]
  = [ Ok (initial_geometries_append
            (duplicate_of_append stage2_conformer 618451002)
            (mkGeometry [(2, 0, 0)%Q]));
      Ok duplicate_conformer ]
  /\ (duplicated_by duplicate_conformer >? 0) = true.
Proof. split; reflexivity. Qed.

(** ** The combiner of topology summaries *)

Lemma count_projections_additive : Forall additive count_projections.
Proof.
  unfold count_projections.
  repeat (apply Forall_cons; [intros a b; reflexivity|]).
  apply Forall_nil.
Qed.

Lemma topology_id_add_counts a b :
  topology_id (add_counts a b) = topology_id a.
Proof. reflexivity. Qed.

(** One step of the reduction, past the sentinel: the loop over
    [count_field_names] leaves the field-wise sum. *)
Lemma _merge_two_summaries_sum s0 s1 :
  topology_id s0 = topology_id s1 ->
  _merge_two_summaries count_field_names (Some s0) s1
  = Ok (Some (add_counts s0 s1)).
Proof.
  intros H. unfold _merge_two_summaries.
  fold (topology_id s0). fold (topology_id s1).
  rewrite H, Z.eqb_refl. destruct s0, s1. vm_compute. reflexivity.
Qed.

Lemma _merge_two_summaries_mismatch s0 s1 :
  topology_id s0 <> topology_id s1 ->
  _merge_two_summaries count_field_names (Some s0) s1 = Raise AssertionError.
Proof.
  intros H. unfold _merge_two_summaries.
  fold (topology_id s0). fold (topology_id s1).
  apply Z.eqb_neq in H. now rewrite H.
Qed.

Lemma reduce_cons {A B : Type} (f : A -> B -> result A) x rest init :
  reduce f (x :: rest) init = bind (f init x) (fun acc => reduce f rest acc).
Proof. reflexivity. Qed.

Lemma reduce_merge_two t l : forall s0,
  topology_id s0 = t ->
  Forall (fun s => topology_id s = t) l ->
  reduce (_merge_two_summaries count_field_names) l (Some s0)
  = Ok (Some (fold_left add_counts l s0)).
Proof.
  induction l as [|s l IH]; intros s0 H0 Hl; [reflexivity|].
  pose proof (Forall_inv Hl) as Hs. apply Forall_inv_tail in Hl.
  cbn beta in Hs.
  rewrite reduce_cons, _merge_two_summaries_sum by congruence.
  cbn [bind fold_left]. now apply IH.
Qed.

Lemma merge_bond_topology_summaries_cons t s l :
  Forall (fun x => topology_id x = t) (s :: l) ->
  merge_bond_topology_summaries (s :: l) count_field_names
  = Ok (Some (fold_left add_counts l s)).
Proof.
  intros H.
  pose proof (Forall_inv H) as Hs. apply Forall_inv_tail in H.
  cbn beta in Hs.
  unfold merge_bond_topology_summaries. rewrite reduce_cons.
  change (_merge_two_summaries count_field_names None s) with (Ok (Some s)).
  cbn [bind]. now apply (reduce_merge_two t).
Qed.

Lemma fold_add_counts_topology l : forall s,
  topology_id (fold_left add_counts l s) = topology_id s.
Proof. induction l as [|x l IH]; intros s; simpl; [|rewrite IH]; reflexivity. Qed.

Lemma fold_add_counts_total p l : forall s,
  additive p -> p (fold_left add_counts l s) = p s + total p l.
Proof.
  induction l as [|x l IH]; intros s Hp; unfold total; simpl; [lia|].
  rewrite IH by assumption. rewrite Hp. unfold total. lia.
Qed.

Lemma total_app p l1 l2 : total p (l1 ++ l2) = total p l1 + total p l2.
Proof.
  unfold total. induction l1 as [|x l1 IH]; simpl; [reflexivity|].
  rewrite IH. lia.
Qed.

Lemma total_Permutation p l l' :
  Permutation l l' -> total p l = total p l'.
Proof.
  unfold total. induction 1; simpl; lia.
Qed.

(** Two summaries whose additive projections agree have the same
    counters. *)
Lemma counters_ext a b :
  (forall p, additive p -> p a = p b) -> counters a = counters b.
Proof.
  intros H. unfold counters. apply map_ext_in. intros p Hp. apply H.
  pose proof count_projections_additive as Hall.
  rewrite Forall_forall in Hall. now apply Hall.
Qed.

(** A non-empty list of summaries of one topology merges into a summary of
    that topology whose counters are the totals over the list. *)
Lemma merge_bond_topology_summaries_total t l :
  l <> [] ->
  Forall (fun s => topology_id s = t) l ->
  exists s,
    merge_bond_topology_summaries l count_field_names = Ok (Some s)
    /\ topology_id s = t
    /\ (forall p, additive p -> p s = total p l).
Proof.
  destruct l as [|s0 l]; [easy|]. intros _ H.
  exists (fold_left add_counts l s0).
  split; [now apply (merge_bond_topology_summaries_cons t)|].
  inversion H as [|? ? Hs Hl]; subst.
  split; [apply fold_add_counts_topology|].
  intros p Hp. rewrite fold_add_counts_total by assumption.
  unfold total. simpl. reflexivity.
Qed.

Lemma leaves_not_nil g : leaves g <> [].
Proof.
  induction g as [s|l IHl r IHr]; simpl; [easy|].
  intros H. apply app_eq_nil in H. now destruct H.
Qed.

(** However the pairwise combines are nested, the result has the totals
    over the leaves. *)
Lemma combine_grouping_total t g :
  Forall (fun s => topology_id s = t) (leaves g) ->
  exists s,
    combine_grouping g = Ok (Some s)
    /\ topology_id s = t
    /\ (forall p, additive p -> p s = total p (leaves g)).
Proof.
  induction g as [s|l IHl r IHr]; cbn [combine_grouping leaves]; intros H.
  - now apply merge_bond_topology_summaries_total.
  - apply Forall_app in H. destruct H as [Hl Hr].
    destruct (IHl Hl) as (a & Ha & Hta & Hpa).
    destruct (IHr Hr) as (b & Hb & Htb & Hpb).
    rewrite Ha, Hb. cbn [bind summary_list app].
    destruct (merge_bond_topology_summaries_total t [a; b])
      as (s & Hs & Hts & Hps); [easy | now repeat constructor |].
    exists s. split; [assumption|]. split; [assumption|].
    intros p Hp. rewrite (Hps p Hp), total_app, <- Hpa, <- Hpb by assumption.
    unfold total. simpl. lia.
Qed.

(** C5: for summaries of one topology id [t], combining two of them sums
    every counter named in [count_field_names]; the counters of the result
    do not depend on the order of the list, nor on how pairwise combines
    are nested and ordered; and a bare, all-zero summary on either side
    changes no counter. *)
Theorem merge_bond_topology_summaries_commutative_monoid (t : Z) :
  (forall a b,
     topology_id a = t -> topology_id b = t ->
     exists s,
       merge_bond_topology_summaries [a; b] count_field_names = Ok (Some s)
       /\ Forall (fun name =>
                    exists x y,
                      getattr a name = Ok x /\ getattr b name = Ok y
                      /\ getattr s name = Ok (x + y))
                 count_field_names)
  /\ (forall l l',
        l <> [] ->
        Forall (fun s => topology_id s = t) l ->
        Permutation l l' ->
        exists s s',
          merge_bond_topology_summaries l count_field_names = Ok (Some s)
          /\ merge_bond_topology_summaries l' count_field_names
             = Ok (Some s')
          /\ counters s = counters s')
  /\ (forall g g',
        Forall (fun s => topology_id s = t) (leaves g) ->
        Permutation (leaves g) (leaves g') ->
        exists s s' s'',
          combine_grouping g = Ok (Some s)
          /\ combine_grouping g' = Ok (Some s')
          /\ merge_bond_topology_summaries (leaves g) count_field_names
             = Ok (Some s'')
          /\ counters s = counters s'
          /\ counters s = counters s'')
  /\ (forall a bt,
        topology_id a = t -> bond_topology_id bt = t ->
        exists s s',
          merge_bond_topology_summaries [a; bare_summary bt]
                                        count_field_names = Ok (Some s)
          /\ merge_bond_topology_summaries [bare_summary bt; a]
                                           count_field_names = Ok (Some s')
          /\ counters s = counters a
          /\ counters s' = counters a).
Proof.
  split; [|split; [|split]].
  - intros a b Ha Hb. exists (add_counts a b). split.
    + now rewrite (merge_bond_topology_summaries_cons t)
        by now repeat constructor.
    + destruct a, b. vm_compute.
      repeat (apply Forall_cons;
              [do 2 eexists; split; [reflexivity | split; reflexivity]|]).
      apply Forall_nil.
  - intros l l' Hnil Hl Hperm.
    assert (Hl' : Forall (fun s => topology_id s = t) l').
    { rewrite Forall_forall in *. intros x Hx. apply Hl.
      now apply (Permutation_in _ (Permutation_sym Hperm)). }
    assert (Hnil' : l' <> []).
    { intros ->. apply Permutation_sym, Permutation_nil in Hperm.
      contradiction. }
    destruct (merge_bond_topology_summaries_total t l Hnil Hl)
      as (s & Hs & _ & Hps).
    destruct (merge_bond_topology_summaries_total t l' Hnil' Hl')
      as (s' & Hs' & _ & Hps').
    exists s, s'. split; [assumption|]. split; [assumption|].
    apply counters_ext. intros p Hp.
    rewrite (Hps p Hp), (Hps' p Hp). now apply total_Permutation.
  - intros g g' Hg Hperm.
    assert (Hg' : Forall (fun s => topology_id s = t) (leaves g')).
    { rewrite Forall_forall in *. intros x Hx. apply Hg.
      now apply (Permutation_in _ (Permutation_sym Hperm)). }
    destruct (combine_grouping_total t g Hg) as (s & Hs & _ & Hps).
    destruct (combine_grouping_total t g' Hg') as (s' & Hs' & _ & Hps').
    destruct (merge_bond_topology_summaries_total t (leaves g)
                (leaves_not_nil g) Hg) as (s'' & Hs'' & _ & Hps'').
    exists s, s', s''. repeat split; try assumption.
    + apply counters_ext. intros p Hp.
      rewrite (Hps p Hp), (Hps' p Hp). now apply total_Permutation.
    + apply counters_ext. intros p Hp.
      now rewrite (Hps p Hp), (Hps'' p Hp).
  - intros a bt Ha Hbt.
    exists (add_counts a (bare_summary bt)), (add_counts (bare_summary bt) a).
    split; [|split; [|split]].
    + now rewrite (merge_bond_topology_summaries_cons t)
        by now repeat constructor.
    + now rewrite (merge_bond_topology_summaries_cons t)
        by now repeat constructor.
    + destruct a. unfold counters. simpl. now rewrite !Z.add_0_r.
    + destruct a. reflexivity.
Qed.

(** Two summaries of one topology, combined in either order. *)
Lemma merge_bond_topology_summaries_commutative_monoid_witness :
  exists s s',
    merge_bond_topology_summaries [summary_success; summary_duplicate]
                                  count_field_names = Ok (Some s)
    /\ merge_bond_topology_summaries [summary_duplicate; summary_success]
                                     count_field_names = Ok (Some s')
    /\ counters s = counters s'.
Proof.
  apply (proj1 (proj2
           (merge_bond_topology_summaries_commutative_monoid 618451))
           [summary_success; summary_duplicate]
           [summary_duplicate; summary_success]).
  - discriminate.
  - repeat constructor.
  - apply perm_swap.
Defined.

(** The combiner refuses summaries of different topologies. *)
Lemma merge_bond_topology_summaries_mismatch a b :
  topology_id a <> topology_id b ->
  merge_bond_topology_summaries [a; b] count_field_names
  = Raise AssertionError.
Proof.
  intros H. unfold merge_bond_topology_summaries. rewrite reduce_cons.
  change (_merge_two_summaries count_field_names None a) with (Ok (Some a)).
  cbn [bind]. rewrite reduce_cons.
  now rewrite _merge_two_summaries_mismatch.
Qed.

(** ** The tests of [smu_utils_lib_test.py] on the modelled functions *)

Example test_two_stage2 :
  merge_conformer stage2_conformer stage2_conformer
  = Raise (ValueError DuplicateSource).
Proof. reflexivity. Qed.

Example test_two_stage1 :
  merge_conformer stage1_conformer stage1_conformer
  = Raise (ValueError DuplicateSource).
Proof. reflexivity. Qed.

Example test_stage2_stage1_conflict_energy :
  exists got_conf,
    merge_conformer
      (set_scalar f_initial_geometry_energy (-123 # 100) stage2_conformer)
      stage1_conformer
    = Ok (got_conf,
          Some [ CInt 618451001;
                 CInt 1; CInt 1; CInt 1; CInt 1;
                 CFloat (-40651179 # 100000); CFloat (52254 # 1000000);
                 CFloat (-406522079 # 1000000); CFloat (25 # 1000000);
                 CBool true; CBool true;
                 CInt 1; CInt 1; CInt 1; CInt 1;
                 CFloat (-123 # 100); CFloat (52254 # 1000000);
                 CFloat (-406522079 # 1000000); CFloat (25 # 1000000);
                 CBool true; CBool true ])
    /\ get_scalar f_initial_geometry_energy got_conf = Some (-123 # 100)%Q
    /\ normal_modes_of got_conf <> [].
Proof. eexists. split; [reflexivity|]. split; [reflexivity | discriminate]. Qed.

Example test_stage2_stage1_conflict_error_codes :
  exists got_conf,
    merge_conformer (set_error f_error_nstat1 999 stage2_conformer)
                    stage1_conformer
    = Ok (got_conf,
          Some [ CInt 618451001;
                 CInt 1; CInt 1; CInt 1; CInt 1;
                 CFloat (-40651179 # 100000); CFloat (52254 # 1000000);
                 CFloat (-406522079 # 1000000); CFloat (25 # 1000000);
                 CBool true; CBool true;
                 CInt 999; CInt 1; CInt 1; CInt 1;
                 CFloat (-40651179 # 100000); CFloat (52254 # 1000000);
                 CFloat (-406522079 # 1000000); CFloat (25 # 1000000);
                 CBool true; CBool true ]).
Proof. eexists. reflexivity. Qed.

Example test_stage2_stage1_no_conflict_minus1 :
  exists got_conf,
    merge_conformer
      (set_scalar f_initial_geometry_energy (-1) stage2_conformer)
      stage1_conformer
    = Ok (got_conf, None)
    /\ get_scalar f_initial_geometry_energy got_conf = Some (-1)%Q.
Proof. eexists. split; reflexivity. Qed.

Example test_stage2_stage1_no_conflict_approx_equal :
  exists got_conf,
    merge_conformer
      (set_scalar f_initial_geometry_energy
         ((-40651179 # 100000) + (1 # 10000000)) stage2_conformer)
      stage1_conformer
    = Ok (got_conf, None)
    /\ normal_modes_of got_conf <> [].
Proof. eexists. split; [reflexivity | discriminate]. Qed.

Example test_conformer_has_calculation_errors :
  conformer_has_calculation_errors stage1_conformer = false
  /\ conformer_has_calculation_errors stage2_conformer = false
  /\ conformer_has_calculation_errors
       (set_error f_error_frequencies 123 stage2_conformer) = true
  /\ conformer_has_calculation_errors
       (set_error f_error_rotational_modes 123 stage2_conformer) = true
  /\ conformer_has_calculation_errors
       (set_error f_error_nsvg09 1 stage2_conformer) = true
  /\ conformer_has_calculation_errors
       (set_error f_error_nstat1 3 stage2_conformer) = false.
Proof. repeat split. Qed.

Example test_determine_fate :
  determine_fate
    (set_duplicated_by (conformer_id stage1_conformer + 1) stage1_conformer)
  = FATE_DUPLICATE_SAME_TOPOLOGY
  /\ determine_fate
       (set_duplicated_by (conformer_id stage1_conformer + 1000)
                          stage1_conformer)
     = FATE_DUPLICATE_DIFFERENT_TOPOLOGY
  /\ map (fun nstat1 =>
            determine_fate (set_error f_error_nstat1 nstat1 stage1_conformer))
         [2; 5; 4; 6]
     = [ FATE_GEOMETRY_OPTIMIZATION_PROBLEM; FATE_DISASSOCIATED;
         FATE_FORCE_CONSTANT_FAILURE; FATE_DISCARDED_OTHER ]
  /\ determine_fate stage1_conformer = FATE_NO_CALCULATION_RESULTS
  /\ determine_fate (set_error f_error_atomic_analysis 999 stage2_conformer)
     = FATE_CALCULATION_WITH_ERROR
  /\ determine_fate stage2_conformer = FATE_SUCCESS.
Proof. repeat split. Qed.

(** ** Merging records of the same stage *)

(** C6: two stage-1 records, or two stage-2 records, are never merged: the
    call raises the duplicate-source [ValueError], whatever else the two
    records hold. *)
Theorem merge_conformer_same_stage_fails (conf1 conf2 : Conformer) :
  conformer_source conf1 = conformer_source conf2 ->
  conformer_source conf1 = STAGE1 \/ conformer_source conf1 = STAGE2 ->
  merge_conformer conf1 conf2 = Raise (ValueError DuplicateSource).
Proof.
  intros Hsame Hstage. unfold merge_conformer. rewrite <- Hsame.
  destruct Hstage as [->| ->]; reflexivity.
Qed.

(** The two fixtures, each merged with itself. *)
Lemma merge_conformer_same_stage_fails_witness :
  merge_conformer stage1_conformer stage1_conformer
  = Raise (ValueError DuplicateSource)
  /\ merge_conformer stage2_conformer stage2_conformer
     = Raise (ValueError DuplicateSource).
Proof.
  split.
  - apply (merge_conformer_same_stage_fails stage1_conformer
             stage1_conformer); [reflexivity | left; reflexivity].
  - apply (merge_conformer_same_stage_fails stage2_conformer
             stage2_conformer); [reflexivity | right; reflexivity].
Defined.

(** ** Fate *)

Lemma error_field_cases (P : error_field -> Prop) :
  Forall P all_error_fields -> forall f, P f.
Proof.
  intros H f. rewrite Forall_forall in H. apply H.
  destruct f; simpl; tauto.
Qed.

(** A record of stage 2 has a calculation error exactly when one of its
    error fields signals one. *)
Lemma conformer_has_calculation_errors_stage2 conf :
  conformer_source conf = STAGE2 ->
  conformer_has_calculation_errors conf = true
  <-> exists f,
        field_signals_error f (error_value (errors_of conf) f) = true.
Proof.
  intros Hsrc. unfold conformer_has_calculation_errors. rewrite Hsrc.
  fold all_error_fields. rewrite existsb_exists. split.
  - intros (f & _ & Hf). now exists f.
  - intros (f & Hf). exists f. split; [|assumption].
    destruct f; simpl; tauto.
Qed.

Lemma determine_fate_not_duplicate conf :
  duplicated_by conf <= 0 ->
  determine_fate conf
  = match geometry_failure_fate (error_nstat1 (errors_of conf)) with
    | Some failure => failure
    | None =>
        match conformer_source conf with
        | STAGE2 =>
            if conformer_has_calculation_errors conf
            then FATE_CALCULATION_WITH_ERROR
            else FATE_SUCCESS
        | _ => FATE_NO_CALCULATION_RESULTS
        end
    end.
Proof.
  intros H. unfold determine_fate.
  destruct (duplicated_by conf >? 0) eqn:Hd; [|reflexivity].
  apply Z.gtb_lt in Hd. lia.
Qed.

Lemma geometry_failure_fate_cases v :
  (v = 2 /\ geometry_failure_fate v = Some FATE_GEOMETRY_OPTIMIZATION_PROBLEM)
  \/ (v = 5 /\ geometry_failure_fate v = Some FATE_DISASSOCIATED)
  \/ (v = 4 /\ geometry_failure_fate v = Some FATE_FORCE_CONSTANT_FAILURE)
  \/ (v = 6 /\ geometry_failure_fate v = Some FATE_DISCARDED_OTHER)
  \/ (v <> 2 /\ v <> 5 /\ v <> 4 /\ v <> 6 /\ geometry_failure_fate v = None).
Proof.
  unfold geometry_failure_fate.
  destruct (v =? 2) eqn:H2; [apply Z.eqb_eq in H2; auto|].
  destruct (v =? 5) eqn:H5; [apply Z.eqb_eq in H5; auto|].
  destruct (v =? 4) eqn:H4; [apply Z.eqb_eq in H4; auto|].
  destruct (v =? 6) eqn:H6; [apply Z.eqb_eq in H6; auto 10|].
  apply Z.eqb_neq in H2, H5, H4, H6. auto 10.
Qed.

(** C9: for the status field [error_nstat1], 1 is the no-error value and 3
    counts as no error too; neither is in the failure table. A record that
    is not a duplicate whose status is 1 or 3 gets none of the geometry
    fates, and with no fault in its other error fields no
    CALCULATION_WITH_ERROR either (SUCCESS when it has stage-2 results).
    Every status the table holds maps to one of the four geometry fates
    and is the fate of every record, not a duplicate, with that status. *)
Theorem determine_fate_geometry_status (conf : Conformer) :
  duplicated_by conf <= 0 ->
  (no_error_value f_error_nstat1 = 1
   /\ field_signals_error f_error_nstat1 1 = false
   /\ field_signals_error f_error_nstat1 3 = false
   /\ geometry_failure_fate 1 = None
   /\ geometry_failure_fate 3 = None)
  /\ (error_nstat1 (errors_of conf) = 1
      \/ error_nstat1 (errors_of conf) = 3 ->
      ~ In (determine_fate conf)
           [ FATE_GEOMETRY_OPTIMIZATION_PROBLEM; FATE_DISASSOCIATED;
             FATE_FORCE_CONSTANT_FAILURE; FATE_DISCARDED_OTHER ]
      /\ (no_other_error f_error_nstat1 conf ->
          determine_fate conf <> FATE_CALCULATION_WITH_ERROR
          /\ (conformer_source conf = STAGE2 ->
              determine_fate conf = FATE_SUCCESS)))
  /\ (forall failure,
        geometry_failure_fate (error_nstat1 (errors_of conf)) = Some failure ->
        determine_fate conf = failure
        /\ In failure
              [ FATE_GEOMETRY_OPTIMIZATION_PROBLEM; FATE_DISASSOCIATED;
                FATE_FORCE_CONSTANT_FAILURE; FATE_DISCARDED_OTHER ]
        /\ In (error_nstat1 (errors_of conf)) [2; 5; 4; 6]).
Proof.
  intros Hnd. rewrite (determine_fate_not_duplicate conf Hnd).
  split; [repeat split|]. split.
  - intros Hstat.
    assert (Hnone : geometry_failure_fate (error_nstat1 (errors_of conf))
                    = None) by (destruct Hstat as [-> | ->]; reflexivity).
    rewrite Hnone.
    assert (Hok : no_other_error f_error_nstat1 conf ->
                  conformer_source conf = STAGE2 ->
                  conformer_has_calculation_errors conf = false).
    { intros Hother Hsrc.
      destruct (conformer_has_calculation_errors conf) eqn:He; [|reflexivity].
      apply conformer_has_calculation_errors_stage2 in He; [|assumption].
      destruct He as (f & Hf).
      destruct f; try (rewrite Hother in Hf; discriminate).
      simpl in Hf. destruct Hstat as [Hs|Hs]; rewrite Hs in Hf;
        discriminate. }
    split.
    + destruct (conformer_source conf);
        [| |destruct (conformer_has_calculation_errors conf)];
        simpl; intuition discriminate.
    + intros Hother.
      destruct (conformer_source conf) eqn:Hsrc;
        [split; [discriminate|intros H; discriminate]
        |split; [discriminate|intros H; discriminate]|].
      rewrite (Hok Hother eq_refl). split; [discriminate | reflexivity].
  - intros failure Hf. rewrite Hf. split; [reflexivity|].
    destruct (geometry_failure_fate_cases (error_nstat1 (errors_of conf)))
      as [[Hv H]|[[Hv H]|[[Hv H]|[[Hv H]|(_ & _ & _ & _ & H)]]]];
      rewrite H in Hf; try discriminate;
      injection Hf as <-; rewrite Hv; simpl; tauto.
Qed.

(** The stage-2 fixture with status 3 succeeds; the stage-1 fixture with
    status 2 has a geometry-optimization problem. *)
Lemma determine_fate_geometry_status_witness :
  determine_fate (set_error f_error_nstat1 3 stage2_conformer) = FATE_SUCCESS
  /\ determine_fate (set_error f_error_nstat1 2 stage1_conformer)
     = FATE_GEOMETRY_OPTIMIZATION_PROBLEM.
Proof.
  split.
  - destruct (determine_fate_geometry_status
                (set_error f_error_nstat1 3 stage2_conformer))
      as (_ & Hstatus & _); [simpl; lia|].
    destruct Hstatus as [_ Hother]; [right; reflexivity|].
    destruct Hother as [_ Hsuccess].
    + intros f' Hf'. destruct f'; reflexivity.
    + apply Hsuccess. reflexivity.
  - destruct (determine_fate_geometry_status
                (set_error f_error_nstat1 2 stage1_conformer))
      as (_ & _ & Htable); [simpl; lia|].
    destruct (Htable FATE_GEOMETRY_OPTIMIZATION_PROBLEM eq_refl)
      as [Hfate _].
    exact Hfate.
Defined.

(** C3, as the tests have it: the error field [error_nsvg09] has 0 as its
    no-error value, where [error_rotational_modes] has 1. For a record that
    is not a duplicate, has stage-2 results and no geometry failure, a
    non-zero [error_nsvg09] gives CALCULATION_WITH_ERROR; a zero one
    signals no error, and the record succeeds when no other field signals
    one. Nothing is said of the fields the tests do not classify. *)
Theorem determine_fate_zero_expected_field (conf : Conformer) :
  duplicated_by conf <= 0 ->
  conformer_source conf = STAGE2 ->
  geometry_failure_fate (error_nstat1 (errors_of conf)) = None ->
  (no_error_value f_error_nsvg09 = 0
   /\ no_error_value f_error_rotational_modes = 1)
  /\ (error_nsvg09 (errors_of conf) <> 0 ->
      determine_fate conf = FATE_CALCULATION_WITH_ERROR)
  /\ (error_nsvg09 (errors_of conf) = 0 ->
      field_signals_error f_error_nsvg09 (error_nsvg09 (errors_of conf))
      = false
      /\ (no_other_error f_error_nsvg09 conf ->
          determine_fate conf = FATE_SUCCESS)).
Proof.
  intros Hnd Hsrc Hgeo.
  rewrite (determine_fate_not_duplicate conf Hnd), Hgeo, Hsrc.
  split; [split; reflexivity|split].
  - intros Hnz.
    assert (He : conformer_has_calculation_errors conf = true).
    { apply conformer_has_calculation_errors_stage2; [assumption|].
      exists f_error_nsvg09. simpl. apply negb_true_iff.
      now apply Z.eqb_neq. }
    now rewrite He.
  - intros Hz. split; [now rewrite Hz|]. intros Hother.
    destruct (conformer_has_calculation_errors conf) eqn:He; [|reflexivity].
    apply conformer_has_calculation_errors_stage2 in He; [|assumption].
    destruct He as (f & Hf).
    destruct f; try (rewrite Hother in Hf; discriminate).
    simpl in Hf. rewrite Hz in Hf. discriminate.
Qed.

(** The stage-2 fixture, with [error_nsvg09] at 1. *)
Lemma determine_fate_zero_expected_field_witness :
  determine_fate (set_error f_error_nsvg09 1 stage2_conformer)
  = FATE_CALCULATION_WITH_ERROR.
Proof.
  apply (proj1 (proj2
           (determine_fate_zero_expected_field
              (set_error f_error_nsvg09 1 stage2_conformer)
              ltac:(simpl; lia) eq_refl eq_refl))).
  discriminate.
Defined.

(** C3, as stated, fails on the field its test names: with [error_nsvg09]
    at zero the stage-2 fixture succeeds, and with it at 1, as in
    [test_stage2_error_in_0_expected_field], the fixture has a calculation
    error. *)
Lemma zero_is_no_error_for_nsvg09 :
  error_nsvg09 (errors_of stage2_conformer) = 0
  /\ determine_fate stage2_conformer = FATE_SUCCESS
  /\ determine_fate (set_error f_error_nsvg09 1 stage2_conformer)
     = FATE_CALCULATION_WITH_ERROR
  /\ conformer_has_calculation_errors
       (set_error f_error_nsvg09 1 stage2_conformer) = true.
Proof. repeat split. Qed.

(** ** Merging a stage-2 with a stage-1 record *)

Lemma merge_conformer_stage2_stage1 stage2 stage1 :
  conformer_source stage2 = STAGE2 ->
  conformer_source stage1 = STAGE1 ->
  merge_conformer stage2 stage1 = _merge_stage2_stage1 stage2 stage1
  /\ merge_conformer stage1 stage2 = _merge_stage2_stage1 stage2 stage1.
Proof.
  intros H2 H1. unfold merge_conformer. rewrite H2, H1. split; reflexivity.
Qed.

Lemma merge_duplicate_fields_ok conf other :
  duplicated_by conf = 0 \/ duplicated_by other = 0
  \/ duplicated_by conf = duplicated_by other ->
  exists merged,
    merge_duplicate_fields conf other = Ok merged
    /\ conformer_id merged = conformer_id conf
    /\ properties merged = properties conf.
Proof.
  intros H. unfold merge_duplicate_fields.
  replace (negb (duplicated_by conf =? 0) && negb (duplicated_by other =? 0)
           && negb (duplicated_by conf =? duplicated_by other))
    with false; [eexists; repeat split|].
  symmetry. destruct H as [H|[H|H]]; rewrite H.
  - reflexivity.
  - simpl. now rewrite andb_false_r.
  - rewrite Z.eqb_refl. simpl. now rewrite andb_false_r.
Qed.

Lemma merge_duplicate_fields_inv conf other merged :
  merge_duplicate_fields conf other = Ok merged ->
  conformer_id merged = conformer_id conf
  /\ properties merged = properties conf.
Proof.
  unfold merge_duplicate_fields.
  destruct (negb (duplicated_by conf =? 0) && negb (duplicated_by other =? 0)
            && negb (duplicated_by conf =? duplicated_by other));
    [discriminate|].
  intros H. injection H as <-. split; reflexivity.
Qed.

(** The merge goes through for a mergeable pair. *)
Lemma _merge_stage2_stage1_ok stage2 stage1 :
  mergeable stage2 stage1 ->
  exists merged conflict,
    _merge_stage2_stage1 stage2 stage1 = Ok (merged, conflict).
Proof.
  intros ((bt & Hb2 & Hb1) & (g2 & g1 & Hg2 & Hg1) & Hdup).
  unfold _merge_stage2_stage1. rewrite Hb2, Hb1, Hg2, Hg1.
  destruct (BondTopology_eq_dec bt bt) as [_|Hne]; [|now exfalso].
  match goal with
  | |- context [merge_duplicate_fields ?c stage1] =>
      destruct (merge_duplicate_fields_ok c stage1 Hdup) as (m & Hm & _)
  end.
  rewrite Hm. simpl. now do 2 eexists.
Qed.

(** What a merge that went through returns: the properties of stage 2 over
    those of stage 1, and one conflict row exactly when some compared
    column differs. *)
Lemma _merge_stage2_stage1_inv stage2 stage1 merged conflict :
  _merge_stage2_stage1 stage2 stage1 = Ok (merged, conflict) ->
  conformer_id merged = conformer_id stage2
  /\ properties merged
     = merge_optional_properties (properties stage2) (properties stage1)
  /\ conflict = (if has_conflict stage2 stage1
                 then Some (conflict_row stage2 stage1)
                 else None).
Proof.
  unfold _merge_stage2_stage1.
  destruct (bond_topologies stage2) as [|bt2 [|? ?]]; try discriminate.
  destruct (bond_topologies stage1) as [|bt1 [|? ?]]; try discriminate.
  destruct (initial_geometries stage2) as [|g2 [|? ?]]; try discriminate.
  destruct (initial_geometries stage1) as [|g1 [|? ?]]; try discriminate.
  destruct (BondTopology_eq_dec bt2 bt1) as [Hbt|Hbt]; [|discriminate].
  match goal with
  | |- context [merge_duplicate_fields ?c stage1] =>
      destruct (merge_duplicate_fields c stage1) as [m|err] eqn:Hm;
      [apply merge_duplicate_fields_inv in Hm; destruct Hm as [Hid Hp]
      |discriminate]
  end.
  simpl. intros H. injection H as <- <-.
  split; [exact Hid|]. split; [exact Hp | reflexivity].
Qed.

Lemma get_scalar_merged stage2 stage1 merged f v2 :
  properties merged
  = merge_optional_properties (properties stage2) (properties stage1) ->
  get_scalar f stage2 = Some v2 ->
  get_scalar f merged = Some v2.
Proof.
  unfold get_scalar. intros -> H.
  destruct (properties stage2) as [p2|]; [|discriminate].
  destruct (properties stage1) as [p1|]; [|exact H].
  destruct f; simpl in *; rewrite H; reflexivity.
Qed.

Lemma scalar_mismatch_false v2 v1 :
  scalar_mismatch (Some v2) (Some v1) = false
  <-> (v2 == -1)%Q \/ (Qabs (v2 - v1) <= tolerance)%Q.
Proof.
  unfold scalar_mismatch. destruct (Qeq_bool v2 (-1)) eqn:E.
  - apply Qeq_bool_iff in E. tauto.
  - rewrite negb_false_iff, Qle_bool_iff. split; [tauto|].
    intros [H|H]; [|assumption].
    apply Qeq_bool_iff in H. congruence.
Qed.

Lemma cf_scalar_in_conflict_fields f : In (cf_scalar f) conflict_fields.
Proof. destruct f; simpl; tauto. Qed.

Lemma has_conflict_false stage2 stage1 :
  has_conflict stage2 stage1 = false
  <-> forall cf, In cf conflict_fields ->
                 field_mismatch stage2 stage1 cf = false.
Proof.
  unfold has_conflict. split.
  - intros H cf Hin.
    destruct (field_mismatch stage2 stage1 cf) eqn:E; [|reflexivity].
    rewrite <- H. symmetry. apply existsb_exists. now exists cf.
  - intros H.
    destruct (existsb (field_mismatch stage2 stage1) conflict_fields) eqn:E;
      [|reflexivity].
    apply existsb_exists in E. destruct E as (cf & Hin & Hcf).
    rewrite (H cf Hin) in Hcf. discriminate.
Qed.

Lemma field_value_scalar conf f v :
  get_scalar f conf = Some v ->
  In (CFloat v) (map (field_value conf) conflict_fields).
Proof.
  intros H. apply in_map_iff. exists (cf_scalar f).
  split; [simpl; now rewrite H | apply cf_scalar_in_conflict_fields].
Qed.

(** C1, with the sentinel left out: a mergeable stage-2/stage-1 pair merges
    (in either argument order) into a record that keeps the stage-2 value of
    every measurement stage 2 has. A measurement present in both and within
    1e-6 raises no conflict, so that the merge reports none when no other
    column differs; one that differs by more, the stage-2 value not being
    -1, makes the merge report its one conflict row, which holds the
    values of both sources. *)
Theorem merge_conformer_scalar_tolerance (stage2 stage1 : Conformer) :
  conformer_source stage2 = STAGE2 ->
  conformer_source stage1 = STAGE1 ->
  mergeable stage2 stage1 ->
  exists merged conflict,
    merge_conformer stage2 stage1 = Ok (merged, conflict)
    /\ merge_conformer stage1 stage2 = Ok (merged, conflict)
    /\ (conflict = None
        <-> forall cf, In cf conflict_fields ->
                       field_mismatch stage2 stage1 cf = false)
    /\ (conflict = None \/ conflict = Some (conflict_row stage2 stage1))
    /\ forall f v2,
         get_scalar f stage2 = Some v2 ->
         get_scalar f merged = Some v2
         /\ forall v1,
              get_scalar f stage1 = Some v1 ->
              ((Qabs (v2 - v1) <= tolerance)%Q ->
               field_mismatch stage2 stage1 (cf_scalar f) = false)
              /\ (~ (Qabs (v2 - v1) <= tolerance)%Q ->
                  ~ (v2 == -1)%Q ->
                  conflict = Some (conflict_row stage2 stage1)
                  /\ In (CFloat v1)
                        (map (field_value stage1) conflict_fields)
                  /\ In (CFloat v2)
                        (map (field_value stage2) conflict_fields)).
Proof.
  intros H2 H1 Hm.
  destruct (merge_conformer_stage2_stage1 stage2 stage1 H2 H1) as [E21 E12].
  destruct (_merge_stage2_stage1_ok stage2 stage1 Hm)
    as (merged & conflict & Hok).
  exists merged, conflict. rewrite E21, E12.
  destruct (_merge_stage2_stage1_inv _ _ _ _ Hok) as (_ & Hp & Hc).
  split; [assumption|]. split; [assumption|]. split; [|split].
  - rewrite <- has_conflict_false, Hc.
    destruct (has_conflict stage2 stage1); split; congruence.
  - rewrite Hc. destruct (has_conflict stage2 stage1); auto.
  - intros f v2 Hv2. split; [now apply (get_scalar_merged stage2 stage1)|].
    intros v1 Hv1. split.
    + intros Htol. simpl. rewrite Hv2, Hv1.
      apply scalar_mismatch_false. now right.
    + intros Hfar Hsent.
      assert (Hmis : field_mismatch stage2 stage1 (cf_scalar f) = true).
      { simpl. rewrite Hv2, Hv1.
        destruct (scalar_mismatch (Some v2) (Some v1)) eqn:E; [reflexivity|].
        apply scalar_mismatch_false in E. tauto. }
      assert (Hhas : has_conflict stage2 stage1 = true).
      { apply existsb_exists. exists (cf_scalar f).
        split; [apply cf_scalar_in_conflict_fields | assumption]. }
      rewrite Hc, Hhas. split; [reflexivity|].
      split; now apply (field_value_scalar _ f).
Qed.

Lemma fixtures_mergeable f v :
  mergeable (set_scalar f v stage2_conformer) stage1_conformer.
Proof.
  split; [exists sample_topology; split; reflexivity|].
  split; [do 2 eexists; split; reflexivity | left; reflexivity].
Qed.

(** The stage-2 fixture with an energy of -1.23 against the stage-1
    fixture ([test_stage2_stage1_conflict_energy]). *)
Lemma merge_conformer_scalar_tolerance_witness :
  exists merged conflict,
    merge_conformer
      (set_scalar f_initial_geometry_energy (-123 # 100) stage2_conformer)
      stage1_conformer = Ok (merged, conflict)
    /\ get_scalar f_initial_geometry_energy merged = Some (-123 # 100)%Q
    /\ conflict
       = Some (conflict_row
                 (set_scalar f_initial_geometry_energy (-123 # 100)
                             stage2_conformer)
                 stage1_conformer).
Proof.
  destruct (merge_conformer_scalar_tolerance
              (set_scalar f_initial_geometry_energy (-123 # 100)
                          stage2_conformer)
              stage1_conformer eq_refl eq_refl
              (fixtures_mergeable f_initial_geometry_energy (-123 # 100)%Q))
    as (merged & conflict & Hmerge & _ & _ & _ & Hfield).
  destruct (Hfield f_initial_geometry_energy (-123 # 100)%Q eq_refl)
    as [Hkeep Hcompare].
  destruct (Hcompare (-40651179 # 100000)%Q eq_refl) as [_ Hfar].
  destruct Hfar as [Hconflict _].
  - unfold Qle. simpl. lia.
  - unfold Qeq. simpl. lia.
  - exists merged, conflict.
    split; [exact Hmerge|]. split; [exact Hkeep | exact Hconflict].
Defined.

(** C1, as stated, fails: with the stage-2 energy at -1 the two energies
    differ by far more than 1e-6 and the merge reports no conflict
    ([test_stage2_stage1_no_conflict_minus1]). *)
Lemma sentinel_differs_without_conflict :
  get_scalar f_initial_geometry_energy
    (set_scalar f_initial_geometry_energy (-1) stage2_conformer)
  = Some (-1)%Q
  /\ get_scalar f_initial_geometry_energy stage1_conformer
     = Some (-40651179 # 100000)%Q
  /\ ~ (Qabs (-1 - (-40651179 # 100000)) <= tolerance)%Q
  /\ exists merged,
       merge_conformer
         (set_scalar f_initial_geometry_energy (-1) stage2_conformer)
         stage1_conformer
       = Ok (merged, None).
Proof.
  split; [reflexivity|]. split; [reflexivity|]. split.
  - unfold Qle. simpl. lia.
  - eexists. reflexivity.
Qed.

(** ** The sentinel -1 *)

Lemma existsb_pointwise {A : Type} (f g : A -> bool) (l : list A) :
  (forall a, In a l -> f a = g a) -> existsb f l = existsb g l.
Proof.
  induction l as [|a l IH]; intros H; simpl; [reflexivity|].
  rewrite (H a) by now left. rewrite IH; [reflexivity|].
  intros b Hb. apply H. now right.
Qed.

Lemma scalar_field_eq_dec (f g : scalar_field) : {f = g} + {f <> g}.
Proof. decide equality. Qed.

Section SetScalarStage1.

Variables (f : scalar_field) (v : Q) (stage1 : Conformer).
Hypothesis Hstage1 : conformer_source stage1 = STAGE1.

Lemma stage1_has_properties : exists p, properties stage1 = Some p.
Proof.
  unfold conformer_source in Hstage1.
  destruct (properties stage1) as [p|]; [now exists p | discriminate].
Qed.

Lemma set_scalar_source : conformer_source (set_scalar f v stage1) = STAGE1.
Proof.
  destruct stage1_has_properties as (p & Hp).
  unfold conformer_source in *. rewrite Hp in Hstage1.
  unfold set_scalar. rewrite Hp. destruct f; exact Hstage1.
Qed.

Lemma set_scalar_errors : errors_of (set_scalar f v stage1) = errors_of stage1.
Proof.
  destruct stage1_has_properties as (p & Hp).
  unfold errors_of, set_scalar. rewrite Hp. now destruct f.
Qed.

Lemma set_scalar_other g :
  g <> f -> get_scalar g (set_scalar f v stage1) = get_scalar g stage1.
Proof.
  destruct stage1_has_properties as (p & Hp).
  unfold get_scalar, set_scalar. rewrite Hp.
  intros Hg. destruct f, g; try reflexivity; now exfalso.
Qed.

Lemma set_scalar_same : get_scalar f (set_scalar f v stage1) = Some v.
Proof. unfold get_scalar, set_scalar. now destruct f. Qed.

(** With the field at hand present in stage 2, the merged properties do not
    depend on the stage-1 value of that field. *)
Lemma set_scalar_merged_properties stage2 v2 :
  get_scalar f stage2 = Some v2 ->
  merge_optional_properties (properties stage2)
                            (properties (set_scalar f v stage1))
  = merge_optional_properties (properties stage2) (properties stage1).
Proof.
  destruct stage1_has_properties as (p & Hp).
  unfold get_scalar, set_scalar. rewrite Hp.
  destruct (properties stage2) as [p2|]; [|discriminate].
  intros H. simpl. unfold merge_properties.
  destruct f; simpl in *; rewrite H; reflexivity.
Qed.

(** With the stage-2 value at -1, no column changes its verdict. *)
Lemma set_scalar_field_mismatch stage2 v2 cf :
  get_scalar f stage2 = Some v2 ->
  (v2 == -1)%Q ->
  field_mismatch stage2 (set_scalar f v stage1) cf
  = field_mismatch stage2 stage1 cf.
Proof.
  intros Hv2 Hsent. destruct cf as [e|g| |]; simpl.
  - now rewrite set_scalar_errors.
  - destruct (scalar_field_eq_dec g f) as [->|Hg].
    + rewrite set_scalar_same, Hv2.
      transitivity false.
      * apply scalar_mismatch_false. now left.
      * symmetry. destruct (get_scalar f stage1) as [v1|]; [|reflexivity].
        apply scalar_mismatch_false. now left.
    + now rewrite set_scalar_other.
  - reflexivity.
  - reflexivity.
Qed.

End SetScalarStage1.

(** C4: in the merge of a mergeable stage-2/stage-1 pair, a measurement
    whose stage-2 value is exactly -1 raises no conflict and keeps the -1
    in the merged record; the merge reports no conflict when no other
    column differs; and replacing the stage-1 value of that measurement by
    any other value changes neither the merged record nor whether a
    conflict is reported. *)
Theorem merge_conformer_minus_one_sentinel
    (stage2 stage1 : Conformer) (f : scalar_field) (v2 : Q) :
  conformer_source stage2 = STAGE2 ->
  conformer_source stage1 = STAGE1 ->
  mergeable stage2 stage1 ->
  get_scalar f stage2 = Some v2 ->
  (v2 == -1)%Q ->
  exists merged conflict,
    merge_conformer stage2 stage1 = Ok (merged, conflict)
    /\ field_mismatch stage2 stage1 (cf_scalar f) = false
    /\ get_scalar f merged = Some v2
    /\ ((forall cf, In cf conflict_fields -> cf <> cf_scalar f ->
                    field_mismatch stage2 stage1 cf = false) ->
        conflict = None)
    /\ forall v1,
       exists conflict',
         merge_conformer stage2 (set_scalar f v1 stage1)
         = Ok (merged, conflict')
         /\ (conflict' = None <-> conflict = None).
Proof.
  intros H2 H1 Hm Hv2 Hsent.
  destruct (merge_conformer_stage2_stage1 stage2 stage1 H2 H1) as [E21 _].
  destruct (_merge_stage2_stage1_ok stage2 stage1 Hm)
    as (merged & conflict & Hok).
  exists merged, conflict. rewrite E21.
  destruct (_merge_stage2_stage1_inv _ _ _ _ Hok) as (_ & Hp & Hc).
  assert (Hfield : field_mismatch stage2 stage1 (cf_scalar f) = false).
  { simpl. rewrite Hv2.
    destruct (get_scalar f stage1) as [v1|]; [|reflexivity].
    apply scalar_mismatch_false. now left. }
  split; [assumption|]. split; [assumption|].
  split; [now apply (get_scalar_merged stage2 stage1)|]. split.
  - intros Hothers.
    assert (Hnone : has_conflict stage2 stage1 = false).
    { apply has_conflict_false. intros cf Hin.
      destruct cf as [e|g| |]; try (apply Hothers; [assumption|discriminate]).
      destruct (scalar_field_eq_dec g f) as [->|Hg]; [assumption|].
      apply Hothers; [assumption | congruence]. }
    now rewrite Hc, Hnone.
  - intros v1.
    destruct (merge_conformer_stage2_stage1 stage2 (set_scalar f v1 stage1)
                H2 (set_scalar_source f v1 stage1 H1)) as [E21' _].
    rewrite E21'.
    assert (Hhas : has_conflict stage2 (set_scalar f v1 stage1)
                   = has_conflict stage2 stage1).
    { apply existsb_pointwise. intros cf _.
      now apply (set_scalar_field_mismatch f v1 stage1 H1 stage2 v2). }
    exists (if has_conflict stage2 stage1
            then Some (conflict_row stage2 (set_scalar f v1 stage1))
            else None).
    split.
    + revert Hok. unfold _merge_stage2_stage1, merge_duplicate_fields.
      rewrite Hhas,
        (set_scalar_merged_properties f v1 stage1 H1 stage2 v2 Hv2).
      change (bond_topologies (set_scalar f v1 stage1))
        with (bond_topologies stage1).
      change (initial_geometries (set_scalar f v1 stage1))
        with (initial_geometries stage1).
      change (optimized_geometry (set_scalar f v1 stage1))
        with (optimized_geometry stage1).
      change (duplicated_by (set_scalar f v1 stage1))
        with (duplicated_by stage1).
      change (duplicate_of (set_scalar f v1 stage1))
        with (duplicate_of stage1).
      destruct (bond_topologies stage2) as [|bt2 [|? ?]]; try discriminate.
      destruct (bond_topologies stage1) as [|bt1 [|? ?]]; try discriminate.
      destruct (initial_geometries stage2) as [|g2 [|? ?]];
        try discriminate.
      destruct (initial_geometries stage1) as [|g1 [|? ?]];
        try discriminate.
      destruct (BondTopology_eq_dec bt2 bt1) as [Hbt|Hbt]; [|discriminate].
      match goal with
      | |- context [if ?b then Raise _ else _] => destruct b
      end; [discriminate|].
      cbn [bind]. intros H. injection H as <- _. reflexivity.
    + rewrite Hc. destruct (has_conflict stage2 stage1); split; congruence.
Qed.

(** The stage-2 fixture with an energy of -1 against the stage-1 fixture
    ([test_stage2_stage1_no_conflict_minus1]). *)
Lemma merge_conformer_minus_one_sentinel_witness :
  exists merged,
    merge_conformer
      (set_scalar f_initial_geometry_energy (-1) stage2_conformer)
      stage1_conformer = Ok (merged, None)
    /\ get_scalar f_initial_geometry_energy merged = Some (-1)%Q.
Proof.
  destruct (merge_conformer_minus_one_sentinel
              (set_scalar f_initial_geometry_energy (-1) stage2_conformer)
              stage1_conformer f_initial_geometry_energy (-1)%Q
              eq_refl eq_refl
              (fixtures_mergeable f_initial_geometry_energy (-1)%Q)
              eq_refl (Qeq_refl (-1)%Q))
    as (merged & conflict & Hmerge & _ & Hkeep & Hnone & _).
  exists merged. rewrite <- (Hnone ltac:(
    intros cf Hin Hcf; simpl in Hin;
    repeat (destruct Hin as [<-|Hin]; [reflexivity|]); destruct Hin)).
  split; [exact Hmerge | exact Hkeep].
Defined.

(** * Further properties of the pipeline's functions *)

(** ** When [merge_duplicate_information] returns *)

(** A record the loop returns was built from a group whose other members
    all point at the key and hold the geometry the loop reads. *)
Lemma absorb_duplicates_ok_inv key conformers : forall main r,
  absorb_duplicates key main conformers = Ok r ->
  Forall (fun c => duplicated_by c = key) (others key conformers)
  /\ Forall (fun c => same_topology key c = true -> initial_geometries c <> [])
            (others key conformers).
Proof.
  induction conformers as [|c rest IH]; intros main r H.
  - split; constructor.
  - simpl in H. destruct (conformer_id c =? key) eqn:Hid.
    + rewrite (others_cons_main _ _ _ Hid). now apply (IH main r).
    + rewrite (others_cons_other _ _ _ Hid).
      destruct (duplicated_by c =? key) eqn:Hdup; [|discriminate].
      apply Z.eqb_eq in Hdup. simpl in H.
      change (key / 1000 =? conformer_id c / 1000)
        with (same_topology key c) in H.
      destruct (same_topology key c) eqn:Htop.
      * destruct (initial_geometries c) as [|g gs] eqn:Hgs; [discriminate|].
        apply IH in H. destruct H as [H1 H2].
        split; constructor; try assumption. intros _. now rewrite Hgs.
      * apply IH in H. destruct H as [H1 H2].
        split; constructor; try assumption. intros Habs. congruence.
Qed.

(** X1: [merge_duplicate_information] returns a record exactly when the
    group holds one record of the key's id, every other member has
    [duplicated_by] equal to the key, and every other member of the key's
    topology has an initial geometry. In particular a group with a member
    that neither carries the key nor points at it never resolves. *)
Theorem merge_duplicate_information_returns_iff
    (key : Z) (conformers : list Conformer) :
  (exists r, merge_duplicate_information key conformers = Ok r)
  <-> (exists main, mains key conformers = [main])
      /\ Forall (fun c => duplicated_by c = key) (others key conformers)
      /\ Forall (fun c => same_topology key c = true ->
                          initial_geometries c <> [])
                (others key conformers).
Proof.
  split.
  - intros (r & Hr). apply merge_duplicate_information_inv in Hr.
    destruct Hr as (main & Hmain & Hr).
    split; [now exists main|].
    now apply (absorb_duplicates_ok_inv key conformers main r).
  - intros ((main & Hmain) & Hdup & Hgeo).
    rewrite (merge_duplicate_information_ok key conformers main
               Hmain Hdup Hgeo).
    now eexists.
Qed.

(** A member that points elsewhere stops the loop with the
    wrong-[duplicated_by] [ValueError] when it is met first. *)
Lemma absorb_duplicates_wrong_duplicated_by key main c rest :
  conformer_id c <> key ->
  duplicated_by c <> key ->
  absorb_duplicates key main (c :: rest)
  = Raise (ValueError WrongDuplicatedBy).
Proof.
  intros Hid Hdup. simpl.
  apply Z.eqb_neq in Hid, Hdup. now rewrite Hid, Hdup.
Qed.

(** ** The order of arrival in a group *)

Lemma Permutation_filter_bool {A : Type} (f : A -> bool) (l l' : list A) :
  Permutation l l' -> Permutation (filter f l) (filter f l').
Proof.
  induction 1 as [|x l l' _ IH|x y l|l l' l'' _ IH1 _ IH2]; simpl.
  - constructor.
  - destruct (f x); [now constructor | assumption].
  - destruct (f x), (f y); try reflexivity. apply perm_swap.
  - now transitivity (filter f l').
Qed.

Lemma Permutation_flat_map_list {A B : Type} (f : A -> list B) l l' :
  Permutation l l' -> Permutation (flat_map f l) (flat_map f l').
Proof.
  induction 1 as [|x l l' _ IH|x y l|l l' l'' _ IH1 _ IH2]; simpl.
  - constructor.
  - now apply Permutation_app_head.
  - rewrite !app_assoc. apply Permutation_app_tail, Permutation_app_comm.
  - now transitivity (flat_map f l').
Qed.

(** X2: the order in which the members of a group arrive does not decide
    whether [merge_duplicate_information] returns, and changes the record
    it returns only in the order of the appended [duplicate_of] ids and
    initial geometries. *)
Theorem merge_duplicate_information_any_order
    (key : Z) (conformers conformers' : list Conformer) (r : Conformer) :
  Permutation conformers conformers' ->
  merge_duplicate_information key conformers = Ok r ->
  exists r',
    merge_duplicate_information key conformers' = Ok r'
    /\ conformer_id r' = conformer_id r
    /\ duplicated_by r' = duplicated_by r
    /\ bond_topologies r' = bond_topologies r
    /\ optimized_geometry r' = optimized_geometry r
    /\ properties r' = properties r
    /\ fate r' = fate r
    /\ Permutation (duplicate_of r) (duplicate_of r')
    /\ Permutation (initial_geometries r) (initial_geometries r').
Proof.
  intros Hperm Hr.
  destruct (merge_duplicate_information_inv key conformers r Hr)
    as (main & Hmain & Habsorb).
  destruct (absorb_duplicates_ok_inv key conformers main r Habsorb)
    as [Hdup Hgeo].
  assert (Hothers : Permutation (others key conformers)
                                (others key conformers'))
    by now apply Permutation_filter_bool.
  assert (Hmain' : mains key conformers' = [main]).
  { apply Permutation_length_1_inv. rewrite <- Hmain.
    now apply Permutation_filter_bool. }
  assert (Hdup' : Forall (fun c => duplicated_by c = key)
                         (others key conformers'))
    by now rewrite <- Hothers.
  assert (Hgeo' : Forall (fun c => same_topology key c = true ->
                                   initial_geometries c <> [])
                         (others key conformers'))
    by now rewrite <- Hothers.
  rewrite (merge_duplicate_information_ok key conformers main
             Hmain Hdup Hgeo) in Hr.
  injection Hr as <-.
  rewrite (merge_duplicate_information_ok key conformers' main
             Hmain' Hdup' Hgeo').
  eexists. split; [reflexivity|]. simpl. repeat split.
  - apply Permutation_app_head. now apply Permutation_map.
  - apply Permutation_app_head, Permutation_flat_map_list.
    now apply Permutation_filter_bool.
Qed.

(** The three-member group of the fixture's id, in another order. *)
Lemma merge_duplicate_information_any_order_witness :
  exists r',
    merge_duplicate_information 618451001
      [duplicate_marker 618999001 618451001; duplicate_conformer;
       stage2_conformer] = Ok r'
    /\ Permutation [618451002; 618999001] (duplicate_of r').
Proof.
  destruct (merge_duplicate_information_any_order 618451001
              [stage2_conformer; duplicate_conformer;
               duplicate_marker 618999001 618451001]
              [duplicate_marker 618999001 618451001; duplicate_conformer;
               stage2_conformer]
              (initial_geometries_append
                 (duplicate_of_append
                    (duplicate_of_append stage2_conformer 618451002)
                    618999001)
                 (mkGeometry [(2, 0, 0)%Q])))
    as (r' & Hr' & _ & _ & _ & _ & _ & _ & Hdup & _).
  - apply Permutation_rev with
      (l := [stage2_conformer; duplicate_conformer;
             duplicate_marker 618999001 618451001]).
  - reflexivity.
  - exists r'. split; [exact Hr' | exact Hdup].
Defined.

(** ** The groups the duplicate pass builds *)

Lemma others_app key l1 l2 :
  others key (l1 ++ l2) = others key l1 ++ others key l2.
Proof. apply filter_app. Qed.

Lemma mains_app key l1 l2 :
  mains key (l1 ++ l2) = mains key l1 ++ mains key l2.
Proof. apply filter_app. Qed.

Lemma members_app_list {V : Type} k (l1 l2 : list (Z * V)) :
  members k (l1 ++ l2) = members k l1 ++ members k l2.
Proof. unfold members. now rewrite filter_app, map_app. Qed.

(** What one record sends under a key. *)
Lemma members_generate_keyed key c :
  members key (generate_keyed_conformers_for_duplicates c)
  = (if conformer_id c =? key then [c] else [])
    ++ (if (duplicated_by c >? 0) && (duplicated_by c =? key)
        then [c] else []).
Proof.
  unfold members, generate_keyed_conformers_for_duplicates.
  cbn [filter fst].
  destruct (conformer_id c =? key), (duplicated_by c >? 0);
    cbn [filter fst map snd app andb]; try reflexivity;
    destruct (duplicated_by c =? key); reflexivity.
Qed.

(** Under a key arrive, besides the records of that id, exactly the
    records that point at it. *)
Lemma others_members key updated :
  others key
    (members key
       (flat_map generate_keyed_conformers_for_duplicates updated))
  = pointing_at key updated.
Proof.
  induction updated as [|c rest IH]; [reflexivity|].
  cbn [flat_map].
  rewrite members_app_list, others_app, IH, members_generate_keyed.
  unfold pointing_at, others. cbn [filter].
  destruct (conformer_id c =? key) eqn:Hid,
           ((duplicated_by c >? 0) && (duplicated_by c =? key)) eqn:Hp;
    cbn [app filter negb andb]; rewrite ?Hid; cbn [negb andb];
    rewrite ?Hp; reflexivity.
Qed.

Lemma pointing_at_duplicated_by key updated :
  Forall (fun c => duplicated_by c = key) (pointing_at key updated).
Proof.
  apply Forall_forall. intros c Hc. apply filter_In in Hc.
  destruct Hc as [_ Hc]. apply andb_true_iff in Hc.
  destruct Hc as [_ Hc]. now apply Z.eqb_eq.
Qed.

(** A record of the key's id arrives once, and once more when it points at
    itself. *)
Lemma mains_members_length key updated :
  List.length
    (mains key
       (members key
          (flat_map generate_keyed_conformers_for_duplicates updated)))
  = Nat.add
      (List.length (mains key updated))
      (List.length
         (filter (fun c => (conformer_id c =? key)
                           && ((duplicated_by c >? 0)
                               && (duplicated_by c =? key)))
                 updated)).
Proof.
  induction updated as [|c rest IH]; [reflexivity|].
  cbn [flat_map].
  rewrite members_app_list, mains_app, length_app, IH,
    members_generate_keyed.
  unfold mains. cbn [filter].
  destruct (conformer_id c =? key) eqn:Hid,
           ((duplicated_by c >? 0) && (duplicated_by c =? key)) eqn:Hp;
    cbn [app filter andb List.length]; rewrite ?Hid;
    cbn [app filter andb List.length]; lia.
Qed.

Lemma merge_duplicate_information_not_one key conformers :
  List.length (mains key conformers) <> 1%nat ->
  merge_duplicate_information key conformers
  = Raise (ValueError ExpectedOneConformer).
Proof.
  intros Hlen. unfold merge_duplicate_information.
  fold (mains key conformers).
  destruct (mains key conformers) as [|main [|other rest]];
    [reflexivity | now exfalso; apply Hlen | reflexivity].
Qed.

(** With every other member pointing at the key, the loop either returns
    or stops on a missing geometry. *)
Lemma absorb_duplicates_ok_or_index_error key conformers : forall main,
  Forall (fun c => duplicated_by c = key) (others key conformers) ->
  (exists r, absorb_duplicates key main conformers = Ok r)
  \/ absorb_duplicates key main conformers = Raise IndexError.
Proof.
  induction conformers as [|c rest IH]; intros main Hdup.
  - left. now eexists.
  - simpl. destruct (conformer_id c =? key) eqn:Hid.
    + rewrite (others_cons_main _ _ _ Hid) in Hdup. now apply IH.
    + rewrite (others_cons_other _ _ _ Hid) in Hdup.
      pose proof (Forall_inv Hdup) as Hc. apply Forall_inv_tail in Hdup.
      simpl in Hc. apply Z.eqb_eq in Hc. rewrite Hc. simpl.
      destruct (key / 1000 =? conformer_id c / 1000).
      * destruct (initial_geometries c); [now right | now apply IH].
      * now apply IH.
Qed.

(** The pass resolves each key that arrives, with the group of that key. *)
Lemma final_conformers_by_key updated :
  final_conformers updated
  = map (fun key => resolved_under key updated)
        (map fst
           (GroupByKey
              (flat_map generate_keyed_conformers_for_duplicates updated))).
Proof.
  unfold final_conformers. rewrite map_map. apply map_ext_in.
  intros [k g] Hin. unfold resolved_under. cbn [fst snd].
  destruct (GroupByKey_spec Conformer
              (flat_map generate_keyed_conformers_for_duplicates updated))
    as (_ & _ & Hg).
  now rewrite (Hg k g Hin).
Qed.

(** The keys that arrive: the ids of the records and the ids they point
    at. *)
Lemma keys_of_pass updated key :
  In key
     (map fst
        (GroupByKey
           (flat_map generate_keyed_conformers_for_duplicates updated)))
  <-> exists c,
        In c updated
        /\ (key = conformer_id c
            \/ ((duplicated_by c >? 0) = true /\ key = duplicated_by c)).
Proof.
  destruct (GroupByKey_spec Conformer
              (flat_map generate_keyed_conformers_for_duplicates updated))
    as (_ & Hkeys & _).
  rewrite Hkeys, in_map_iff. split.
  - intros ([k c] & Hk & Hin). simpl in Hk. subst k.
    apply in_flat_map in Hin. destruct Hin as (c0 & Hc0 & Hin).
    exists c0. split; [assumption|].
    unfold generate_keyed_conformers_for_duplicates in Hin.
    destruct Hin as [Heq|Hin]; [injection Heq as <- _; now left|].
    destruct (duplicated_by c0 >? 0) eqn:Hd; [|easy].
    destruct Hin as [Heq|[]]. injection Heq as <- _. now right.
  - intros (c & Hc & Hk).
    destruct Hk as [->|[Hd ->]].
    + exists (conformer_id c, c). split; [reflexivity|].
      apply in_flat_map. exists c. split; [assumption | now left].
    + exists (duplicated_by c, c). split; [reflexivity|].
      apply in_flat_map. exists c. split; [assumption|].
      unfold generate_keyed_conformers_for_duplicates. rewrite Hd.
      right. now left.
Qed.

(** X3: on the groups the pass builds itself, the check of
    [duplicated_by] in [merge_duplicate_information] never fires: every
    group either resolves, or has not exactly one record of the key's id,
    or lacks a geometry the loop reads. *)
Theorem final_conformers_outcome_kinds
    (updated : list Conformer) (o : result Conformer) :
  In o (final_conformers updated) ->
  (exists r, o = Ok r)
  \/ o = Raise (ValueError ExpectedOneConformer)
  \/ o = Raise IndexError.
Proof.
  rewrite final_conformers_by_key. intros Hin.
  apply in_map_iff in Hin. destruct Hin as (key & <- & _).
  unfold resolved_under, merge_duplicate_information.
  match goal with
  | |- context [filter _ ?g] => fold (mains key g); set (group := g)
  end.
  destruct (mains key group) as [|main [|other rest]]; auto.
  destruct (absorb_duplicates_ok_or_index_error key group main)
    as [(r & Hr)|Hr]; rewrite ?Hr; eauto.
  unfold group. rewrite others_members.
  apply pointing_at_duplicated_by.
Qed.

(** The pass over the two fixtures and a bare marker of their topology. *)
Lemma final_conformers_outcome_kinds_witness :
  (exists r,
     merge_duplicate_information 618451002
       [duplicate_marker 618451002 618451001] = Ok r)
  \/ merge_duplicate_information 618451002
       [duplicate_marker 618451002 618451001]
     = Raise (ValueError ExpectedOneConformer)
  \/ merge_duplicate_information 618451002
       [duplicate_marker 618451002 618451001]
     = Raise IndexError.
Proof.
  apply (final_conformers_outcome_kinds
           [stage2_conformer; duplicate_marker 618451002 618451001]).
  right. left. reflexivity.
Defined.

(** X4: the pass fails, with the expected-one-conformer [ValueError], for
    the id a record points at when no record has that id, for the id of a
    record that points at itself, and for an id that two records share. *)
Theorem final_conformers_unresolvable_keys
    (updated : list Conformer) (c : Conformer) :
  In c updated ->
  (duplicated_by c > 0 ->
   (forall c', In c' updated -> conformer_id c' <> duplicated_by c) ->
   resolved_under (duplicated_by c) updated
   = Raise (ValueError ExpectedOneConformer))
  /\ (duplicated_by c > 0 ->
      duplicated_by c = conformer_id c ->
      resolved_under (conformer_id c) updated
      = Raise (ValueError ExpectedOneConformer))
  /\ ((2 <= List.length (mains (conformer_id c) updated))%nat ->
      resolved_under (conformer_id c) updated
      = Raise (ValueError ExpectedOneConformer))
  /\ (forall key,
        resolved_under key updated = Raise (ValueError ExpectedOneConformer) ->
        (key = conformer_id c
         \/ (duplicated_by c > 0 /\ key = duplicated_by c)) ->
        In (Raise (ValueError ExpectedOneConformer))
           (final_conformers updated)).
Proof.
  intros Hc. split; [|split; [|split]].
  - intros Hpos Hnone. apply merge_duplicate_information_not_one.
    rewrite mains_members_length.
    assert (Hm : mains (duplicated_by c) updated = []).
    { destruct (mains (duplicated_by c) updated) as [|c' l] eqn:E;
        [reflexivity|].
      assert (Hin : In c' (mains (duplicated_by c) updated))
        by (rewrite E; now left).
      apply filter_In in Hin. destruct Hin as [Hin Hid].
      apply Z.eqb_eq in Hid. now apply Hnone in Hin. }
    rewrite Hm.
    match goal with
    | |- Nat.add _ (List.length ?l) <> _ =>
        assert (Hs : l = [])
    end.
    { match goal with
      | |- ?l = [] => destruct l as [|c' l'] eqn:E; [reflexivity|]
      end.
      match type of E with
      | ?l = _ => assert (Hin : In c' l) by (rewrite E; now left)
      end.
      apply filter_In in Hin. destruct Hin as [Hin Hid].
      apply andb_true_iff in Hid. destruct Hid as [Hid _].
      apply Z.eqb_eq in Hid. now apply Hnone in Hin. }
    rewrite Hs. simpl. lia.
  - intros Hpos Hself. apply merge_duplicate_information_not_one.
    rewrite mains_members_length.
    assert (H1 : In c (mains (conformer_id c) updated)).
    { apply filter_In. split; [assumption | apply Z.eqb_refl]. }
    match goal with
    | |- Nat.add _ (List.length ?l) <> _ => assert (H2 : In c l)
    end.
    { apply filter_In. split; [assumption|].
      rewrite Hself, !Z.eqb_refl. simpl. rewrite andb_true_r.
      apply Z.gtb_lt. lia. }
    destruct (mains (conformer_id c) updated); [destruct H1|].
    match goal with
    | |- Nat.add _ (List.length ?l) <> _ => destruct l; [destruct H2|]
    end.
    simpl. lia.
  - intros Hlen. apply merge_duplicate_information_not_one.
    rewrite mains_members_length. lia.
  - intros key Hfail Hkey. rewrite final_conformers_by_key.
    apply in_map_iff. exists key. split; [assumption|].
    apply keys_of_pass. exists c. split; [assumption|].
    destruct Hkey as [->|[Hpos ->]]; [now left|].
    right. split; [|reflexivity]. apply Z.gtb_lt. lia.
Qed.

(** A marker that points at an id no record has. *)
Lemma final_conformers_unresolvable_keys_witness :
  In (Raise (ValueError ExpectedOneConformer))
     (final_conformers
        [stage2_conformer; duplicate_marker 618451002 618999001]).
Proof.
  destruct (final_conformers_unresolvable_keys
              [stage2_conformer; duplicate_marker 618451002 618999001]
              (duplicate_marker 618451002 618999001))
    as (Hdangling & _ & _ & Hin).
  - right. now left.
  - apply (Hin 618999001).
    + apply Hdangling; [reflexivity|].
      intros c' [<-|[<-|[]]]; discriminate.
    + right. split; reflexivity.
Defined.

(** ** [MergeConformersFn.process] *)

Section MergeConformersFnFacts.

Variable merge_conformer_fn :
  Conformer -> Conformer -> result (Conformer * option (list conflict_value)).

(** What the reduction does to its state: it appends at most one non-empty
    conflict row per merge, and ends on the sentinel only if it started
    there and met no conformer. *)
Lemma reduce_merge_two_conformers conformers : forall acc conflicts0 state,
  reduce (_merge_two_conformers merge_conformer_fn) conformers
         (acc, conflicts0) = Ok state ->
  exists added,
    snd state = conflicts0 ++ added
    /\ (List.length added
        <= match acc with
           | Some _ => List.length conformers
           | None => pred (List.length conformers)
           end)%nat
    /\ Forall (fun row => row <> []) added
    /\ (fst state = None <-> acc = None /\ conformers = []).
Proof.
  induction conformers as [|c rest IH]; intros acc conflicts0 state H.
  - simpl in H. injection H as <-. exists []. simpl.
    rewrite app_nil_r.
    split; [reflexivity|]. split; [destruct acc; simpl; lia|].
    split; [constructor | tauto].
  - rewrite reduce_cons in H. unfold _merge_two_conformers at 1 in H.
    cbn [fst snd] in H.
    assert (Hiff : forall acc' : option Conformer,
               (fst state = None <-> acc' = None /\ rest = []) ->
               (exists m, acc' = Some m) ->
               (fst state = None <-> acc = None /\ c :: rest = [])).
    { intros acc' Hnone (m & ->). split; intros Hx.
      - apply Hnone in Hx. destruct Hx as [Hx _]. discriminate.
      - destruct Hx as [_ Hx]. discriminate. }
    destruct acc as [conf0|].
    + destruct (merge_conformer_fn conf0 c) as [[m conflict]|e];
        [|discriminate].
      cbn [bind fst snd] in H. apply IH in H.
      destruct H as (added & Hs & Hlen & Hne & Hnone).
      destruct conflict as [[|cell cells]|].
      * exists added. split; [assumption|]. split; [simpl; lia|].
        split; [assumption | apply (Hiff _ Hnone); now eexists].
      * exists ((cell :: cells) :: added). rewrite Hs, <- app_assoc.
        split; [reflexivity|]. split; [simpl; lia|].
        split; [constructor; [discriminate | assumption]|].
        apply (Hiff _ Hnone); now eexists.
      * exists added. split; [assumption|]. split; [simpl; lia|].
        split; [assumption | apply (Hiff _ Hnone); now eexists].
    + cbn [bind] in H. apply IH in H.
      destruct H as (added & Hs & Hlen & Hne & Hnone).
      exists added. split; [assumption|]. split; [simpl; lia|].
      split; [assumption | apply (Hiff _ Hnone); now eexists].
Qed.

End MergeConformersFnFacts.

Lemma forallb_false_exists conformers key :
  forallb (fun c => conformer_id c =? key) conformers = false ->
  exists c, In c conformers /\ conformer_id c <> key.
Proof.
  induction conformers as [|c rest IH]; simpl; [discriminate|].
  destruct (conformer_id c =? key) eqn:Hid; simpl.
  - intros H. destruct (IH H) as (c' & Hin & Hc'). exists c'. auto.
  - intros _. exists c. split; [now left | now apply Z.eqb_neq].
Qed.

(** X5: whatever [merge_conformer] does, [MergeConformersFn.process]
    raises its own [ValueError] exactly when some conformer of the group
    has an id other than the group's: the check comes before any merge. *)
Theorem MergeConformersFn_process_checks_ids
    (merge_conformer_fn :
       Conformer -> Conformer ->
       result (Conformer * option (list conflict_value)))
    (key : Z) (conformers : list Conformer) :
  MergeConformersFn_process merge_conformer_fn (key, conformers)
  = Failed MergedCIDMismatch
  <-> exists c, In c conformers /\ conformer_id c <> key.
Proof.
  unfold MergeConformersFn_process. cbn [fst snd].
  destruct (forallb (fun c => conformer_id c =? key) conformers) eqn:Hall.
  - split.
    + destruct (reduce _ conformers (None, [])); discriminate.
    + intros (c & Hin & Hid). rewrite forallb_forall in Hall.
      apply Hall in Hin. apply Z.eqb_eq in Hin. contradiction.
  - split; [intros _ | reflexivity].
    destruct (forallb_false_exists conformers key Hall) as (c & Hin & Hid).
    now exists c.
Qed.

(** X6: when [MergeConformersFn.process] returns, it yields one merged
    conformer first and then the conflict rows, each non-empty and fewer
    than the conformers of the group; a group of one conformer comes out as
    that conformer, with no conflict and no call of [merge_conformer]; only
    an empty group yields the sentinel. *)
Theorem MergeConformersFn_process_outputs
    (merge_conformer_fn :
       Conformer -> Conformer ->
       result (Conformer * option (list conflict_value)))
    (key : Z) (conformers : list Conformer) (outputs : list merge_output) :
  MergeConformersFn_process merge_conformer_fn (key, conformers)
  = Returned outputs ->
  exists merged conflicts,
    outputs = MergedConformer merged :: map TaggedConflict conflicts
    /\ (merged = None <-> conformers = [])
    /\ (List.length conflicts <= pred (List.length conformers))%nat
    /\ Forall (fun row => row <> []) conflicts
    /\ Forall (fun c => conformer_id c = key) conformers
    /\ (forall c, conformers = [c] -> merged = Some c /\ conflicts = []).
Proof.
  unfold MergeConformersFn_process. cbn [fst snd].
  destruct (forallb (fun c => conformer_id c =? key) conformers) eqn:Hall;
    [|discriminate].
  destruct (reduce _ conformers (None, [])) as [state|e] eqn:Hred;
    [|discriminate].
  intros H. injection H as <-.
  destruct (reduce_merge_two_conformers _ _ _ _ _ Hred)
    as (added & Hs & Hlen & Hne & Hnone).
  simpl in Hs. exists (fst state), (snd state). rewrite Hs.
  split; [reflexivity|]. split; [tauto|]. split; [assumption|].
  split; [assumption|]. split.
  - apply Forall_forall. intros c Hin. rewrite forallb_forall in Hall.
    now apply Z.eqb_eq, Hall.
  - intros c ->. simpl in Hred. injection Hred as <-.
    simpl in Hs. subst added. split; reflexivity.
Qed.

(** The stage-1 fixture and the stage-2 fixture with an energy of -1.23,
    merged by the modelled [merge_conformer]. *)
Lemma MergeConformersFn_process_outputs_witness :
  exists merged conflicts,
    MergeConformersFn_process merge_conformer
      (618451001,
       [stage1_conformer;
        set_scalar f_initial_geometry_energy (-123 # 100) stage2_conformer])
    = Returned (MergedConformer merged :: map TaggedConflict conflicts)
    /\ (List.length conflicts <= 1)%nat.
Proof.
  destruct (MergeConformersFn_process_outputs merge_conformer 618451001
              [stage1_conformer;
               set_scalar f_initial_geometry_energy (-123 # 100)
                          stage2_conformer]
              (match MergeConformersFn_process merge_conformer
                       (618451001,
                        [stage1_conformer;
                         set_scalar f_initial_geometry_energy (-123 # 100)
                                    stage2_conformer])
               with
               | Returned outputs => outputs
               | Failed _ => []
               end) eq_refl)
    as (merged & conflicts & Hout & _ & Hlen & _).
  exists merged, conflicts. split; [|exact Hlen].
  rewrite <- Hout. reflexivity.
Defined.

(** ** [UpdateConformerFn.process] *)

(** X7: whatever [determine_fate] and the smiles comparison do,
    [UpdateConformerFn.process] raises its [ValueError] for a conformer
    that has not exactly one bond topology once the fate is determined;
    when it returns, the conformer comes last, with the determined fate and
    every other field but the smiles untouched; on a MATCH nothing else is
    yielded and the topology is unchanged; otherwise one row is yielded
    first, with the original smiles, and the conformer's smiles becomes the
    one without hydrogens. *)
Theorem UpdateConformerFn_process_outputs
    (determine_fate_fn : Conformer -> result FateCategory)
    (bond_topology_smiles_comparison :
       BondTopology -> result (SmilesCompareResult * string * string))
    (conformer : Conformer) :
  (forall fate0,
     determine_fate_fn conformer = Ok fate0 ->
     List.length (bond_topologies conformer) <> 1%nat ->
     UpdateConformerFn_process determine_fate_fn
       bond_topology_smiles_comparison conformer
     = Failed CompareSmilesTopologyCount)
  /\ (forall outputs,
        UpdateConformerFn_process determine_fate_fn
          bond_topology_smiles_comparison conformer
        = Returned outputs ->
        exists bt fate0 compare smiles_with_h smiles_without_h updated,
          bond_topologies conformer = [bt]
          /\ determine_fate_fn conformer = Ok fate0
          /\ bond_topology_smiles_comparison bt
             = Ok (compare, smiles_with_h, smiles_without_h)
          /\ fate updated = fate0
          /\ conformer_id updated = conformer_id conformer
          /\ initial_geometries updated = initial_geometries conformer
          /\ optimized_geometry updated = optimized_geometry conformer
          /\ properties updated = properties conformer
          /\ duplicated_by updated = duplicated_by conformer
          /\ duplicate_of updated = duplicate_of conformer
          /\ (compare = MATCH ->
              outputs = [UpdatedConformer updated]
              /\ bond_topologies updated = [bt])
          /\ (compare <> MATCH ->
              outputs
              = [ TaggedSmiles (conformer_id conformer, compare, smiles bt,
                                smiles_with_h, smiles_without_h);
                  UpdatedConformer updated ]
              /\ bond_topologies updated
                 = [set_smiles smiles_without_h bt])).
Proof.
  unfold UpdateConformerFn_process, _compare_smiles. split.
  - intros fate0 -> Hlen. cbn [set_fate bond_topologies].
    destruct (bond_topologies conformer) as [|bt [|bt' l]];
      [reflexivity | now exfalso; apply Hlen | reflexivity].
  - intros outputs H.
    destruct (determine_fate_fn conformer) as [fate0|e]; [|discriminate].
    change (bond_topologies (set_fate fate0 conformer))
      with (bond_topologies conformer) in H.
    destruct (bond_topologies conformer) as [|bt [|bt' l]] eqn:Hbts;
      try discriminate.
    destruct (bond_topology_smiles_comparison bt)
      as [[[compare with_h] without_h]|e] eqn:Hcmp; [|discriminate].
    exists bt, fate0, compare, with_h, without_h.
    destruct compare; injection H as <-.
    + exists (set_bond_topologies [set_smiles without_h bt]
                (set_fate fate0 conformer)).
      do 10 (split; [reflexivity || exact Hcmp|]).
      split; intros Hc; [discriminate | split; reflexivity].
    + exists (set_bond_topologies [set_smiles without_h bt]
                (set_fate fate0 conformer)).
      do 10 (split; [reflexivity || exact Hcmp|]).
      split; intros Hc; [discriminate | split; reflexivity].
    + exists (set_fate fate0 conformer).
      do 10 (split; [reflexivity || exact Hcmp|]).
      split; intros Hc; [split; [reflexivity | exact Hbts]
                        | now exfalso; apply Hc].
Qed.

(** A bare duplicate marker has no bond topology. *)
Lemma UpdateConformerFn_process_outputs_witness :
  UpdateConformerFn_process (fun c => Ok (determine_fate c))
    (fun bt => Ok (MATCH, smiles bt, smiles bt))
    (duplicate_marker 618451002 618451001)
  = Failed CompareSmilesTopologyCount.
Proof.
  apply (proj1 (UpdateConformerFn_process_outputs
                  (fun c => Ok (determine_fate c))
                  (fun bt => Ok (MATCH, smiles bt, smiles bt))
                  (duplicate_marker 618451002 618451001))
           FATE_DUPLICATE_SAME_TOPOLOGY).
  - reflexivity.
  - discriminate.
Defined.

(** ** [parse_equivalent_file] *)

(** X8: for conformer indices below 1000, the record a line of the
    equivalence file gives has the bond topology ids and indices of the
    line back in its two ids (by [// 1000] and [% 1000]), so that the
    duplicate pass takes it for a same-topology duplicate exactly when the
    two topology ids are equal; it has no initial geometry, so that next to
    any record of the kept id alone it makes the pass fail with
    [IndexError] in that case. *)
Theorem parse_equivalent_line_ids (kept discard : Z * Z) :
  0 <= snd kept < 1000 ->
  0 <= snd discard < 1000 ->
  conformer_id (parse_equivalent_line kept discard) / 1000 = fst discard
  /\ conformer_id (parse_equivalent_line kept discard) mod 1000 = snd discard
  /\ duplicated_by (parse_equivalent_line kept discard) / 1000 = fst kept
  /\ duplicated_by (parse_equivalent_line kept discard) mod 1000 = snd kept
  /\ (same_topology (duplicated_by (parse_equivalent_line kept discard))
                    (parse_equivalent_line kept discard) = true
      <-> fst kept = fst discard)
  /\ (forall main,
        conformer_id main
        = duplicated_by (parse_equivalent_line kept discard) ->
        kept <> discard ->
        fst kept = fst discard ->
        merge_duplicate_information
          (duplicated_by (parse_equivalent_line kept discard))
          [main; parse_equivalent_line kept discard]
        = Raise IndexError).
Proof.
  intros Hk Hd. destruct kept as [kb kc], discard as [db dc].
  cbn [fst snd] in *. unfold parse_equivalent_line.
  cbn [fst snd conformer_id duplicated_by].
  assert (E1 : (db * 1000 + dc) / 1000 = db)
    by (Z.to_euclidean_division_equations; lia).
  assert (E2 : (kb * 1000 + kc) / 1000 = kb)
    by (Z.to_euclidean_division_equations; lia).
  assert (E3 : (db * 1000 + dc) mod 1000 = dc)
    by (Z.to_euclidean_division_equations; lia).
  assert (E4 : (kb * 1000 + kc) mod 1000 = kc)
    by (Z.to_euclidean_division_equations; lia).
  repeat (split; [assumption|]).
  split.
  - unfold same_topology. cbn [conformer_id]. rewrite E1, E2.
    apply Z.eqb_eq.
  - intros main Hmain Hne Hsame. subst db.
    assert (Hc : kc <> dc) by congruence.
    unfold merge_duplicate_information. cbn [filter conformer_id].
    rewrite Hmain, Z.eqb_refl.
    replace (kb * 1000 + dc =? kb * 1000 + kc) with false
      by (symmetry; apply Z.eqb_neq; lia).
    cbn [absorb_duplicates]. rewrite Hmain, Z.eqb_refl.
    cbn [conformer_id duplicated_by initial_geometries].
    replace (kb * 1000 + dc =? kb * 1000 + kc) with false
      by (symmetry; apply Z.eqb_neq; lia).
    rewrite Z.eqb_refl, E1, E2, Z.eqb_refl. reflexivity.
Qed.

(** The line that keeps conformer 1 of topology 618451 over conformer 2. *)
Lemma parse_equivalent_line_ids_witness :
  conformer_id (parse_equivalent_line (618451, 1) (618451, 2)) / 1000
  = 618451
  /\ merge_duplicate_information 618451001
       [stage2_conformer; parse_equivalent_line (618451, 1) (618451, 2)]
     = Raise IndexError.
Proof.
  destruct (parse_equivalent_line_ids (618451, 1) (618451, 2))
    as (Hid & _ & _ & _ & _ & Hfail); [simpl; lia | simpl; lia |].
  split; [exact Hid|].
  apply (Hfail stage2_conformer); [reflexivity | discriminate | reflexivity].
Defined.

(** ** The outcomes of [merge_bond_topology_summaries] *)

Lemma fold_add_counts_bond_topology l : forall s,
  bond_topology (fold_left add_counts l s) = bond_topology s.
Proof.
  induction l as [|x l IH]; intros s; simpl; [|rewrite IH]; reflexivity.
Qed.

(** Past the sentinel, a summary of another topology trips the assertion,
    whatever comes before or after it. *)
Lemma reduce_merge_two_assertion l : forall s0,
  Exists (fun s => topology_id s <> topology_id s0) l ->
  reduce (_merge_two_summaries count_field_names) l (Some s0)
  = Raise AssertionError.
Proof.
  induction l as [|s l IH]; intros s0 Hex; [inversion Hex|].
  rewrite reduce_cons.
  destruct (Z.eq_dec (topology_id s0) (topology_id s)) as [Heq|Hne].
  - rewrite _merge_two_summaries_sum by assumption. cbn [bind].
    apply IH. apply Exists_cons in Hex.
    destruct Hex as [Hs|Hex]; [congruence|].
    now rewrite topology_id_add_counts.
  - now rewrite _merge_two_summaries_mismatch.
Qed.

(** X9: [merge_bond_topology_summaries] returns the sentinel, not a
    summary, for no summary at all; for a first summary followed by
    summaries of the same topology id it returns a summary that carries the
    first one's bond topology; and it fails its assertion as soon as one
    summary has another topology id than the first. *)
Theorem merge_bond_topology_summaries_outcomes
    (first : BondTopologySummary) (rest : list BondTopologySummary) :
  merge_bond_topology_summaries [] count_field_names = Ok None
  /\ (Forall (fun s => topology_id s = topology_id first) rest ->
      exists s,
        merge_bond_topology_summaries (first :: rest) count_field_names
        = Ok (Some s)
        /\ bond_topology s = bond_topology first)
  /\ (Exists (fun s => topology_id s <> topology_id first) rest ->
      merge_bond_topology_summaries (first :: rest) count_field_names
      = Raise AssertionError).
Proof.
  split; [reflexivity|]. split.
  - intros Hall. exists (fold_left add_counts rest first). split.
    + apply (merge_bond_topology_summaries_cons (topology_id first)).
      now constructor.
    + apply fold_add_counts_bond_topology.
  - intros Hex. unfold merge_bond_topology_summaries. rewrite reduce_cons.
    change (_merge_two_summaries count_field_names None first)
      with (Ok (Some first)).
    cbn [bind]. now apply reduce_merge_two_assertion.
Qed.

(** A summary of another topology in third place. *)
Lemma merge_bond_topology_summaries_outcomes_witness :
  merge_bond_topology_summaries
    [summary_success; summary_duplicate;
     bare_summary (mkBondTopology [] [] "" 7)]
    count_field_names
  = Raise AssertionError.
Proof.
  apply (proj2 (proj2 (merge_bond_topology_summaries_outcomes
                         summary_success
                         [summary_duplicate;
                          bare_summary (mkBondTopology [] [] "" 7)]))).
  apply Exists_cons_tl, Exists_cons_hd. discriminate.
Defined.

(** ** The summaries of the whole run *)

Lemma members_keyed_summaries key summaries :
  members key (to_keyed_bond_topology_summary summaries)
  = filter (fun s => topology_id s =? key) summaries.
Proof.
  unfold members, to_keyed_bond_topology_summary.
  induction summaries as [|s l IH]; [reflexivity|].
  cbn [map filter fst]. fold (topology_id s).
  destruct (topology_id s =? key); cbn [map snd]; now rewrite IH.
Qed.

Lemma members_bare_summaries key topologies :
  members key (bond_topology_summaries_from_csv topologies)
  = map bare_summary
        (filter (fun bt => bond_topology_id bt =? key) topologies).
Proof.
  unfold members, bond_topology_summaries_from_csv.
  induction topologies as [|bt l IH]; [reflexivity|].
  cbn [map filter fst].
  destruct (bond_topology_id bt =? key); cbn [map snd]; now rewrite IH.
Qed.

Lemma flat_map_to_keyed conformer_summaries :
  flat_map to_keyed_bond_topology_summary conformer_summaries
  = to_keyed_bond_topology_summary (List.concat conformer_summaries).
Proof.
  unfold to_keyed_bond_topology_summary.
  induction conformer_summaries as [|l ls IH]; [reflexivity|].
  simpl. now rewrite IH, map_app.
Qed.

Lemma total_bare_summaries p topologies :
  In p count_projections -> total p (map bare_summary topologies) = 0.
Proof.
  intros Hp. unfold total. induction topologies as [|bt l IH];
    [reflexivity|].
  simpl. rewrite IH.
  simpl in Hp.
  repeat (destruct Hp as [<-|Hp]; [reflexivity|]). destruct Hp.
Qed.

(** X10: in the summary the run combines per topology id, no group trips
    the assertion or comes out as the sentinel: every row is a summary of
    its key whose counters are the sums over the conformers' summaries of
    that topology id; every topology of the topology file has its row, all
    zeros when no conformer's summary has that id; and no id has two
    rows. *)
Theorem combined_bt_summaries_rows
    (topologies : list BondTopology)
    (conformer_summaries : list (list BondTopologySummary)) :
  (forall key row,
     In (key, row)
        (combined_bt_summaries topologies conformer_summaries) ->
     exists s,
       row = Ok (Some s)
       /\ topology_id s = key
       /\ counters s
          = map (fun p =>
                   total p (filter (fun x => topology_id x =? key)
                                   (List.concat conformer_summaries)))
                count_projections)
  /\ (forall bt,
        In bt topologies ->
        In (bond_topology_id bt)
           (map fst (combined_bt_summaries topologies conformer_summaries)))
  /\ NoDup (map fst (combined_bt_summaries topologies conformer_summaries)).
Proof.
  unfold combined_bt_summaries, CombinePerKey.
  set (kvs := bond_topology_summaries_from_csv topologies
              ++ flat_map to_keyed_bond_topology_summary conformer_summaries).
  destruct (GroupByKey_spec BondTopologySummary kvs)
    as (Hnd & Hkeys & Hgroup).
  rewrite map_map. cbn [fst].
  split; [|split; [|assumption]].
  - intros key row Hin. apply in_map_iff in Hin.
    destruct Hin as ([k g] & Heq & Hin). cbn [fst snd] in Heq.
    injection Heq as -> <-.
    pose proof (Hgroup key g Hin) as Hg.
    assert (Hne : g <> []).
    { assert (Hk : In key (map fst kvs))
        by (apply Hkeys, in_map_iff; now exists (key, g)).
      apply in_map_iff in Hk. destruct Hk as ([k v] & Hk & Hv).
      simpl in Hk. subst k g. intros Hnil.
      assert (Hv' : In v (members key kvs)).
      { unfold members. apply in_map_iff. exists (key, v).
        split; [reflexivity|]. apply filter_In.
        split; [assumption | apply Z.eqb_refl]. }
      rewrite Hnil in Hv'. destruct Hv'. }
    assert (Hmem : g = map bare_summary
                         (filter (fun bt => bond_topology_id bt =? key)
                                 topologies)
                       ++ filter (fun x => topology_id x =? key)
                                 (List.concat conformer_summaries)).
    { rewrite Hg. unfold kvs.
      now rewrite members_app_list, members_bare_summaries,
        flat_map_to_keyed, members_keyed_summaries. }
    assert (Hids : Forall (fun s => topology_id s = key) g).
    { rewrite Hmem. apply Forall_app. split; apply Forall_forall.
      - intros s Hs. apply in_map_iff in Hs.
        destruct Hs as (bt & <- & Hbt). apply filter_In in Hbt.
        destruct Hbt as [_ Hbt]. now apply Z.eqb_eq.
      - intros s Hs. apply filter_In in Hs. destruct Hs as [_ Hs].
        now apply Z.eqb_eq. }
    destruct (merge_bond_topology_summaries_total key g Hne Hids)
      as (s & Hs & Hts & Hps).
    exists s. split; [assumption|]. split; [assumption|].
    unfold counters. apply map_ext_in. intros p Hp.
    pose proof count_projections_additive as Hadd.
    rewrite Forall_forall in Hadd.
    rewrite (Hps p (Hadd p Hp)), Hmem, total_app,
      (total_bare_summaries p _ Hp).
    reflexivity.
  - intros bt Hbt. apply Hkeys. unfold kvs. rewrite map_app.
    apply in_or_app. left.
    unfold bond_topology_summaries_from_csv. rewrite map_map.
    cbn [fst]. now apply in_map.
Qed.

(** One topology of the file, two conformers with one summary each. *)
Lemma combined_bt_summaries_rows_witness :
  exists s,
    In (618451, Ok (Some s))
       (combined_bt_summaries [sample_topology]
          [[summary_success]; [summary_duplicate]])
    /\ counters s = [2; 1; 1; 0; 0; 0; 0; 1; 0; 0].
Proof.
  destruct (proj1 (combined_bt_summaries_rows [sample_topology]
                     [[summary_success]; [summary_duplicate]])
              618451
              (match combined_bt_summaries [sample_topology]
                       [[summary_success]; [summary_duplicate]]
               with
               | (_, row) :: _ => row
               | [] => Ok None
               end))
    as (s & Hrow & _ & Hcounters).
  - left. vm_compute. reflexivity.
  - exists s. split.
    + left. rewrite <- Hrow. vm_compute. reflexivity.
    + rewrite Hcounters. vm_compute. reflexivity.
Defined.

(** ** The lines of the summary file *)

Lemma split_not_nil sep s : split sep s <> [].
Proof.
  destruct s as [|c rest]; simpl; [discriminate|].
  destruct (Ascii.eqb c sep); [discriminate|].
  destruct (split sep rest); discriminate.
Qed.

Lemma split_no_separator sep s :
  contains sep s = false -> split sep s = [s].
Proof.
  induction s as [|c rest IH]; simpl; [reflexivity|].
  destruct (Ascii.eqb c sep); [discriminate|]. simpl.
  intros H. now rewrite (IH H).
Qed.

Lemma split_app_separator sep column rest :
  contains sep column = false ->
  split sep (column ++ String sep rest) = column :: split sep rest.
Proof.
  induction column as [|c column IH]; simpl.
  - intros _. now rewrite Ascii.eqb_refl.
  - destruct (Ascii.eqb c sep); [discriminate|]. simpl.
    intros H. now rewrite (IH H).
Qed.

(** Splitting undoes joining, for columns that do not hold the
    separator. *)
Lemma split_concat sep columns : forall column,
  Forall (fun s => contains sep s = false) (column :: columns) ->
  split sep (String.concat (String sep EmptyString) (column :: columns))
  = column :: columns.
Proof.
  induction columns as [|next columns IH]; intros column H.
  - simpl. apply split_no_separator. now apply Forall_inv in H.
  - change (String.concat (String sep EmptyString)
              (column :: next :: columns))
      with (column
            ++ String sep
                 (String.concat (String sep EmptyString) (next :: columns)))%string.
    rewrite split_app_separator by now apply Forall_inv in H.
    rewrite IH by now apply Forall_inv_tail in H. reflexivity.
Qed.

Lemma contains_string_of_uint d :
  contains "," (NilEmpty.string_of_uint d) = false.
Proof. induction d; simpl; assumption || reflexivity. Qed.

Lemma contains_str_int n : contains "," (str_int n) = false.
Proof.
  unfold str_int, NilZero.string_of_int, NilZero.string_of_uint.
  destruct (Z.to_int n) as [d|d]; destruct d; simpl;
    reflexivity || apply contains_string_of_uint.
Qed.

(** [int] reads back what [str] writes. *)
Lemma int_str_str_int n : int_str (str_int n) = Some n.
Proof.
  unfold int_str, str_int. rewrite NilZero.isi.
  - simpl. now rewrite DecimalZ.of_to.
  - destruct n as [|p|p]; simpl; try discriminate.
    intros H. injection H as H. now apply Unsigned.to_uint_nonnil in H.
  - destruct n as [|p|p]; simpl; try discriminate.
    intros H. injection H as H. now apply Unsigned.to_uint_nonnil in H.
Qed.

Lemma map_result_getattr_counts summary :
  map_result (getattr summary) count_field_names = Ok (counters summary).
Proof. destruct summary. vm_compute. reflexivity. Qed.

(** X11: with the field names of the run,
    [csv_format_bond_topology_summary] returns a line whose columns, split
    at the commas, are the topology id and the ten counters as decimal
    strings; reading them back as integers gives the id and the counters,
    and the line has as many columns as the header of the file. *)
Theorem csv_format_bond_topology_summary_round_trip
    (summary : BondTopologySummary) :
  exists line,
    csv_format_bond_topology_summary summary count_field_names = Ok line
    /\ split "," line
       = str_int (topology_id summary) :: map str_int (counters summary)
    /\ map int_str (split "," line)
       = map Some (topology_id summary :: counters summary)
    /\ List.length (split "," line)
       = List.length (split "," (bt_summary_header count_field_names)).
Proof.
  unfold csv_format_bond_topology_summary.
  rewrite map_result_getattr_counts. cbn [bind].
  fold (topology_id summary). eexists. split; [reflexivity|].
  assert (Hsplit :
            split ","
              (String.concat ","
                 (str_int (topology_id summary)
                  :: map str_int (counters summary)))
            = str_int (topology_id summary)
              :: map str_int (counters summary)).
  { apply split_concat. constructor; [apply contains_str_int|].
    apply Forall_forall. intros s Hs. apply in_map_iff in Hs.
    destruct Hs as (n & <- & _). apply contains_str_int. }
  rewrite Hsplit. split; [reflexivity|]. split.
  - cbn [map]. rewrite int_str_str_int. f_equal.
    rewrite map_map. apply map_ext. intros n. apply int_str_str_int.
  - cbn [List.length]. rewrite length_map. reflexivity.
Qed.

(** ** Failures and conflicts in [MergeConformersFn.process] *)

(** X12: in a group whose conformers all have the group's id, an exception
    of [merge_conformer] on the first two conformers is raised by
    [MergeConformersFn.process] as it is, with nothing yielded, whatever
    follows; for a group of two that merges, the merged conformer is
    yielded, followed by the conflict row when [merge_conformer] gave a
    non-empty one, and by nothing when it gave none or an empty one. *)
Theorem MergeConformersFn_process_pair
    (merge_conformer_fn :
       Conformer -> Conformer ->
       result (Conformer * option (list conflict_value)))
    (key : Z) (conf0 conf1 : Conformer) (rest : list Conformer) :
  Forall (fun c => conformer_id c = key) (conf0 :: conf1 :: rest) ->
  (forall e,
     merge_conformer_fn conf0 conf1 = Raise e ->
     MergeConformersFn_process merge_conformer_fn
       (key, conf0 :: conf1 :: rest)
     = Failed (FromCallee e))
  /\ (forall merged conflict,
        merge_conformer_fn conf0 conf1 = Ok (merged, conflict) ->
        MergeConformersFn_process merge_conformer_fn (key, [conf0; conf1])
        = Returned
            (MergedConformer (Some merged)
             :: match conflict with
                | Some (cell :: cells) => [TaggedConflict (cell :: cells)]
                | _ => []
                end)).
Proof.
  intros Hids.
  assert (Hall : forall l,
             Forall (fun c => conformer_id c = key) l ->
             forallb (fun c => conformer_id c =? key) l = true).
  { intros l Hl. apply forallb_forall. intros c Hc.
    rewrite Forall_forall in Hl. now apply Z.eqb_eq, Hl. }
  split.
  - intros e He. unfold MergeConformersFn_process. cbn [fst snd].
    rewrite (Hall _ Hids).
    cbn [reduce _merge_two_conformers fst snd bind].
    rewrite He. reflexivity.
  - intros merged conflict Hm. unfold MergeConformersFn_process.
    cbn [fst snd].
    assert (Hids2 : Forall (fun c => conformer_id c = key) [conf0; conf1]).
    { constructor; [exact (Forall_inv Hids)|].
      constructor; [exact (Forall_inv (Forall_inv_tail Hids))|constructor]. }
    rewrite (Hall _ Hids2).
    cbn [reduce _merge_two_conformers fst snd bind].
    rewrite Hm. cbn [bind fst snd].
    destruct conflict as [[|cell cells]|]; reflexivity.
Qed.

(** Two stage-2 records under one id, with the modelled
    [merge_conformer]. *)
Lemma MergeConformersFn_process_pair_witness :
  MergeConformersFn_process merge_conformer
    (618451001, [stage2_conformer; stage2_conformer])
  = Failed (FromCallee (ValueError DuplicateSource)).
Proof.
  apply (proj1 (MergeConformersFn_process_pair merge_conformer 618451001
                  stage2_conformer stage2_conformer []
                  ltac:(repeat constructor))).
  reflexivity.
Defined.
